(** * NECOS Network Manager: slice lifecycle over two switches

    A shallow embedding of [network_manager.py]: the module-level
    dictionaries, the [NetworkManager] application object and its methods
    [host_to_port], [port_translate_to_brocade], [create_network_slice],
    [delete_network_slice], [add_flow], [rem_flow], [rem_port_from_control]
    and [add_port_to_control].

    Python state is threaded explicitly; exceptions are a result type; every
    effect that leaves the function (log record, SSH session step, OpenFlow
    message) and every write to the [slices] dictionary is appended, in
    program order, to the list of events a run returns. *)

From Stdlib Require Import Ascii String.
From stdpp Require Import base option list gmap strings pretty.

Local Open Scope string_scope.
Local Open Scope list_scope.
Local Open Scope Z_scope.

(** ** Python values and builtins *)

(** Values stored in the [slices] dictionary.  The program only ever stores
    [None]; [PyList] is the shape a stored member list would have. *)
Inductive py_value :=
  | PyNone
  | PyList (items : list string).

Global Instance py_value_eq_dec : EqDecision py_value.
Proof. solve_decision. Defined.

(** Exceptions the modelled code can raise. *)
Inductive exn :=
  | KeyError (key : string)
  | ValueError (literal : string)
  | AttributeError (attr : string).

Global Instance exn_eq_dec : EqDecision exn.
Proof. solve_decision. Defined.

Inductive result (A : Type) :=
  | Ok (a : A)
  | Raise (e : exn).
Arguments Ok {A} a.
Arguments Raise {A} e.

Definition is_ok {A} (r : result A) : bool :=
  match r with Ok _ => true | Raise _ => false end.

(** [str(n)] for an integer: decimal, with a leading minus sign. *)
Definition py_str (n : Z) : string := pretty n.

Definition digit_of_ascii (c : ascii) : option Z :=
  let n := Z.of_nat (nat_of_ascii c) in
  if bool_decide (48 ≤ n ≤ 57) then Some (n - 48) else None.

Fixpoint py_int_go (acc : Z) (s : string) : option Z :=
  match s with
  | EmptyString => Some acc
  | String c s' =>
      match digit_of_ascii c with
      | Some d => py_int_go (10 * acc + d) s'
      | None => None
      end
  end.

(** [int(s)] for a string, on the literals the tables of this program hold:
    a non-empty run of ASCII digits.  Anything else is taken as the
    [ValueError] case ([None]). *)
Definition py_int (s : string) : option Z :=
  match s with
  | EmptyString => None
  | _ => py_int_go 0 s
  end.

(** ** Messages and events *)

Inductive OFProtoParser := ofproto_v1_0_parser.

Global Instance OFProtoParser_eq_dec : EqDecision OFProtoParser.
Proof. solve_decision. Defined.

(** The switch handle [ev.msg.datapath]. *)
Record Datapath := mkDatapath {
  datapath_id : Z;
  ofproto_parser : OFProtoParser
}.

Global Instance Datapath_eq_dec : EqDecision Datapath.
Proof. solve_decision. Defined.

Inductive OFPAction := OFPActionOutput (port : Z).

Global Instance OFPAction_eq_dec : EqDecision OFPAction.
Proof. solve_decision. Defined.

Inductive OFPMatch := mkOFPMatch (in_port : Z).

Global Instance OFPMatch_eq_dec : EqDecision OFPMatch.
Proof. solve_decision. Defined.

Inductive ofp_command := OFPFC_DELETE.

Global Instance ofp_command_eq_dec : EqDecision ofp_command.
Proof. solve_decision. Defined.

(** [parser.OFPFlowMod(...)]: a keyword the call does not pass is [None]
    (the library default applies). *)
Record OFPFlowMod := mkOFPFlowMod {
  fm_datapath : Datapath;
  fm_match : OFPMatch;
  fm_command : option ofp_command;
  fm_idle_timeout : option Z;
  fm_hard_timeout : option Z;
  fm_priority : option Z;
  fm_actions : option (list OFPAction)
}.

Global Instance OFPFlowMod_eq_dec : EqDecision OFPFlowMod.
Proof. solve_decision. Defined.

(** The four log texts of the program, by their format string. *)
Inductive log_message :=
  | MsgSliceExists (slice_id : string)       (* 'O SLICE ({}) JA EXISTE.' *)
  | MsgSliceMissing (slice_id : string)      (* 'O SLICE ({}) NAO EXISTE.' *)
  | MsgSliceId (slice_id : string)           (* 'INFO - SLICE ID: {}' *)
  | MsgSliceMembers (slice_members : list string). (* 'INFO - SLICE MEMBERS: {}' *)

Global Instance log_message_eq_dec : EqDecision log_message.
Proof. solve_decision. Defined.

Inductive log_level := WARNING | INFO.

Global Instance log_level_eq_dec : EqDecision log_level.
Proof. solve_decision. Defined.

Inductive event :=
  | EvLog (level : log_level) (msg : log_message)
  | EvSlicesSet (slice_id : string) (v : py_value)   (* slices[slice_id] = v *)
  | EvSlicesDel (slice_id : string)                  (* del slices[slice_id] *)
  | EvSshConnect (host username password : string)   (* brocade.connect(...) *)
  | EvSshSend (cmd : string)                         (* brocade_shell.send(cmd) *)
  | EvSshClose                                       (* brocade.close() *)
  | EvSendMsg (datapath : Datapath) (m : OFPFlowMod). (* datapath.send_msg(mod) *)

Global Instance event_eq_dec : EqDecision event.
Proof. solve_decision. Defined.

(** Calls that reach one of the two switches. *)
Definition is_external (ev : event) : bool :=
  match ev with
  | EvSshConnect _ _ _ | EvSshSend _ | EvSshClose | EvSendMsg _ _ => true
  | EvLog _ _ | EvSlicesSet _ _ | EvSlicesDel _ => false
  end.

(** ** Program state *)

(** The module globals and the attributes of the [NetworkManager] object.
    [dp] and [parser_global] do not exist until [switch_features_handler]
    has run. *)
Record state := mkState {
  resource_dictionary : gmap string string;
  control_resource_dictionary : gmap string string;
  slices : gmap string py_value;
  dp : option Datapath;
  parser_global : option OFProtoParser
}.

Definition set_slices (f : gmap string py_value → gmap string py_value)
    (st : state) : state :=
  mkState (resource_dictionary st) (control_resource_dictionary st)
          (f (slices st)) (dp st) (parser_global st).

(** The state right after the module is loaded and the app constructed. *)
Definition initial_state : state :=
  mkState
    (<["icarus1" := "1"]> (<["icarus5" := "3"]> (<["icarus8" := "5"]>
       (<["icarus9" := "7"]> (<["entry1" := "9"]> (<["entry2" := "13"]> ∅))))))
    (<["1" := "7"]> (<["3" := "3"]> (<["5" := "9"]> (<["7" := "5"]> ∅))))
    ∅ None None.

(** ** The monad of the embedding *)

Definition M (A : Type) : Type := state → result A * state * list event.

Definition ret {A} (a : A) : M A := λ st, (Ok a, st, []).

Definition bind {A B} (m : M A) (f : A → M B) : M B := λ st,
  match m st with
  | (Ok a, st1, t1) =>
      match f a st1 with
      | (r, st2, t2) => (r, st2, t1 ++ t2)
      end
  | (Raise e, st1, t1) => (Raise e, st1, t1)
  end.

Definition raise {A} (e : exn) : M A := λ st, (Raise e, st, []).
Definition get : M state := λ st, (Ok st, st, []).
Definition modify (f : state → state) : M unit := λ st, (Ok tt, f st, []).
Definition emit (ev : event) : M unit := λ st, (Ok tt, st, [ev]).

Declare Scope py_scope.
Delimit Scope py_scope with py.
Notation "x <- m ;; k" := (bind m (λ x, k))
  (at level 100, m at next level, right associativity) : py_scope.
Notation "m ;; k" := (bind m (λ _, k))
  (at level 100, right associativity) : py_scope.
Local Open Scope py_scope.

(** [for x in l: body x] *)
Fixpoint for_each {A} (l : list A) (body : A → M unit) : M unit :=
  match l with
  | [] => ret tt
  | x :: l' => body x ;; for_each l' body
  end.

(** [[f x for x in l]] *)
Fixpoint list_comp {A B} (f : A → M B) (l : list A) : M (list B) :=
  match l with
  | [] => ret []
  | x :: l' => y <- f x ;; ys <- list_comp f l' ;; ret (y :: ys)
  end.

(** A [for] loop that updates one local variable. *)
Fixpoint for_acc {A S} (l : list A) (body : S → A → M S) (s : S) : M S :=
  match l with
  | [] => ret s
  | x :: l' => s' <- body s x ;; for_acc l' body s'
  end.

(** [d[k]] on a dictionary of the state. *)
Definition getitem (d : state → gmap string string) (k : string) : M string :=
  st <- get ;;
  match d st !! k with
  | Some v => ret v
  | None => raise (KeyError k)
  end.

(** [k in d] *)
Definition contains {V} (d : state → gmap string V) (k : string) : M bool :=
  st <- get ;; ret (bool_decide (is_Some (d st !! k))).

Definition int (s : string) : M Z :=
  match py_int s with
  | Some n => ret n
  | None => raise (ValueError s)
  end.

Definition self_dp : M Datapath :=
  st <- get ;;
  match dp st with
  | Some d => ret d
  | None => raise (AttributeError "dp")
  end.

Definition self_parser_global : M OFProtoParser :=
  st <- get ;;
  match parser_global st with
  | Some p => ret p
  | None => raise (AttributeError "parser_global")
  end.

Definition logger_warning (msg : log_message) : M unit := emit (EvLog WARNING msg).
Definition logger_info (msg : log_message) : M unit := emit (EvLog INFO msg).

(** ** The methods of [NetworkManager] *)

(** The line feed of the command scripts. *)
Definition LF : string := String (ascii_of_nat 10) EmptyString.

Definition switch_features_handler (datapath : Datapath) : M unit :=
  let parser := ofproto_parser datapath in
  modify (λ st,
    mkState (resource_dictionary st) (control_resource_dictionary st)
            (slices st) (Some datapath) (Some parser)).

Definition host_to_port (host_name : string) : M Z :=
  v <- getitem resource_dictionary host_name ;;
  host_port <- int v ;;
  ret host_port.

Definition port_translate_to_brocade (port_to_translate : Z) : M Z :=
  v <- getitem control_resource_dictionary (py_str port_to_translate) ;;
  brocade_port <- int v ;;
  ret brocade_port.

Definition ip_switch_brocade : string := "10.138.1.11".

(** The module global [brocade] only carries the SSH client from
    [open_ssh_connection] to the [send] and [close] of the same session, so
    a session is modelled by its three events.  The two-second settle delay
    after [send] is real time and is left out. *)
Definition open_ssh_connection : M unit :=
  emit (EvSshConnect ip_switch_brocade "dpdadm" "dpdadm").

Definition close_ssh_connection : M unit := emit EvSshClose.

Definition send_cmd_to_brocade (cmd : string) : M unit := emit (EvSshSend cmd).

Definition rem_command (port_to_remove : Z) : string :=
  "enable" +:+ LF +:+ "config t" +:+ LF +:+ "vlan 444" +:+ LF +:+
  "no untagged ethernet 1/" +:+ py_str port_to_remove +:+ LF +:+
  "write memory" +:+ LF +:+ "exit" +:+ LF.

Definition add_command (port_to_add : Z) : string :=
  "enable" +:+ LF +:+ "config t" +:+ LF +:+ "vlan 444" +:+ LF +:+
  "untagged ethernet 1/" +:+ py_str port_to_add +:+ LF +:+
  "write memory" +:+ LF +:+ "exit" +:+ LF.

Definition rem_port_from_control (port_to_remove : Z) : M unit :=
  open_ssh_connection ;;
  let command := rem_command port_to_remove in
  send_cmd_to_brocade command ;;
  close_ssh_connection.

Definition add_port_to_control (port_to_add : Z) : M unit :=
  open_ssh_connection ;;
  let command := add_command port_to_add in
  send_cmd_to_brocade command ;;
  close_ssh_connection.

Definition send_msg (datapath : Datapath) (m : OFPFlowMod) : M unit :=
  emit (EvSendMsg datapath m).

Definition add_flow (datapath : Datapath) (priority : Z) (mtch : OFPMatch)
    (actions : list OFPAction) : M unit :=
  let m := mkOFPFlowMod datapath mtch None (Some 0) (Some 0) (Some priority)
                        (Some actions) in
  send_msg datapath m.

Definition rem_flow (datapath : Datapath) (mtch : OFPMatch) : M unit :=
  let m := mkOFPFlowMod datapath mtch (Some OFPFC_DELETE) None None None None in
  send_msg datapath m.

(** One turn of the [for port in slice_port_members] loop of
    [create_network_slice]. *)
Definition create_port (slice_port_members : list Z) (port : Z) : M unit :=
  let in_port := port in
  in_control <- contains control_resource_dictionary (py_str in_port) ;;
  (if in_control : bool then
     in_port_brocade <- port_translate_to_brocade in_port ;;
     rem_port_from_control in_port_brocade
   else ret tt) ;;
  actions <- for_acc slice_port_members (λ actions item,
      if bool_decide (item ≠ in_port) then
        parser <- self_parser_global ;;
        ret (actions ++ [OFPActionOutput item])
      else ret actions) [] ;;
  parser <- self_parser_global ;;
  let mtch := mkOFPMatch in_port in
  datapath <- self_dp ;;
  add_flow datapath 1 mtch actions.

Definition create_network_slice (slice_id : string)
    (slice_members : list string) : M unit :=
  known <- contains slices slice_id ;;
  (if known : bool then logger_warning (MsgSliceExists slice_id) else ret tt) ;;
  (modify (set_slices (λ m, <[slice_id := PyNone]> m)) ;;
   emit (EvSlicesSet slice_id PyNone)) ;;
  slice_port_members <- list_comp host_to_port slice_members ;;
  for_each slice_port_members (create_port slice_port_members) ;;
  logger_info (MsgSliceId slice_id) ;;
  logger_info (MsgSliceMembers slice_members).

(** One turn of the loop of [delete_network_slice]. *)
Definition delete_port (port : Z) : M unit :=
  let in_port := port in
  in_control <- contains control_resource_dictionary (py_str in_port) ;;
  (if in_control : bool then
     in_port_brocade <- port_translate_to_brocade in_port ;;
     add_port_to_control in_port_brocade
   else ret tt) ;;
  parser <- self_parser_global ;;
  let mtch := mkOFPMatch in_port in
  datapath <- self_dp ;;
  rem_flow datapath mtch.

Definition delete_network_slice (slice_id : string)
    (slice_members : list string) : M unit :=
  known <- contains slices slice_id ;;
  (if known : bool then
     modify (set_slices (λ m, delete slice_id m)) ;;
     emit (EvSlicesDel slice_id)
   else logger_warning (MsgSliceMissing slice_id)) ;;
  slice_port_members <- list_comp host_to_port slice_members ;;
  for_each slice_port_members delete_port ;;
  logger_info (MsgSliceId slice_id) ;;
  logger_info (MsgSliceMembers slice_members).

(** A switch that has completed its features handshake. *)
Definition pronto : Datapath := mkDatapath 1 ofproto_v1_0_parser.

Definition connected_state : state :=
  (switch_features_handler pronto initial_state).1.2.


(** ** Reading a run *)

(** What a run submitted to the programmable switch: the installed rules
    as (match port, action ports) pairs, and the ports whose rule was
    asked to be removed, both in the order of submission. *)
Definition output_port (a : OFPAction) : Z :=
  match a with OFPActionOutput q => q end.

Definition rule_of_event (ev : event) : option (Z * list Z) :=
  match ev with
  | EvSendMsg _ m =>
      match fm_command m, fm_match m, fm_actions m with
      | None, mkOFPMatch p, Some acts => Some (p, output_port <$> acts)
      | _, _, _ => None
      end
  | _ => None
  end.

Definition removal_of_event (ev : event) : option Z :=
  match ev with
  | EvSendMsg _ m =>
      match fm_command m, fm_match m with
      | Some OFPFC_DELETE, mkOFPMatch p => Some p
      | None, _ => None
      end
  | _ => None
  end.

Definition submitted_rules (t : list event) : list (Z * list Z) :=
  omap rule_of_event t.

Definition removed_matches (t : list event) : list Z :=
  omap removal_of_event t.

Definition submits_rule (p : Z) (ev : event) : Prop :=
  ∃ acts, rule_of_event ev = Some (p, acts).

Definition removes_rule (p : Z) (ev : event) : Prop :=
  removal_of_event ev = Some p.

Definition no_external_call (t : list event) : Prop :=
  Forall (λ ev, is_external ev = false) t.

(** Every literal of a table reads as an integer. *)
Definition numeric_table (d : gmap string string) : Prop :=
  map_Forall (λ _ v, is_Some (py_int v)) d.

(** ** The runs in closed form

    The functions below say, without the monad, what one call does; the
    lemmas of the next part prove that the embedded methods compute exactly
    this. *)

(** [int(d[k])] *)
Definition lookup_int (d : gmap string string) (k : string) : result Z :=
  match d !! k with
  | None => Raise (KeyError k)
  | Some v =>
      match py_int v with
      | Some n => Ok n
      | None => Raise (ValueError v)
      end
  end.

Fixpoint resolve_all (d : gmap string string) (names : list string)
    : result (list Z) :=
  match names with
  | [] => Ok []
  | name :: names' =>
      match lookup_int d name with
      | Raise e => Raise e
      | Ok p =>
          match resolve_all d names' with
          | Raise e => Raise e
          | Ok ps => Ok (p :: ps)
          end
      end
  end.

(** The SSH session one port gets: nothing when the port has no entry in
    the control table. *)
Definition session_events (command : Z → string) (st : state) (p : Z)
    : list event :=
  match control_resource_dictionary st !! py_str p with
  | None => []
  | Some v =>
      match py_int v with
      | None => []
      | Some bp =>
          [EvSshConnect ip_switch_brocade "dpdadm" "dpdadm";
           EvSshSend (command bp); EvSshClose]
      end
  end.

Definition mesh_rule (P : list Z) (p : Z) (d : Datapath) : OFPFlowMod :=
  mkOFPFlowMod d (mkOFPMatch p) None (Some 0) (Some 0) (Some 1)
    (Some (OFPActionOutput <$> filter (λ q, q ≠ p) P)).

Definition drop_rule (p : Z) (d : Datapath) : OFPFlowMod :=
  mkOFPFlowMod d (mkOFPMatch p) (Some OFPFC_DELETE) None None None None.

(** One loop turn for port [p]: the session, then the flow message. *)
Definition port_step (command : Z → string) (fm : Z → Datapath → OFPFlowMod)
    (st : state) (p : Z) : result unit * list event :=
  match lookup_int (control_resource_dictionary st) (py_str p) with
  | Raise (ValueError v) => (Raise (ValueError v), [])
  | _ =>
      match parser_global st, dp st with
      | None, _ =>
          (Raise (AttributeError "parser_global"), session_events command st p)
      | Some _, None =>
          (Raise (AttributeError "dp"), session_events command st p)
      | Some _, Some d =>
          (Ok tt, session_events command st p ++ [EvSendMsg d (fm p d)])
      end
  end.

Fixpoint loop_steps {A} (step : A → result unit * list event) (l : list A)
    : result unit * list event :=
  match l with
  | [] => (Ok tt, [])
  | x :: l' =>
      match step x with
      | (Raise e, t) => (Raise e, t)
      | (Ok _, t) =>
          match loop_steps step l' with
          | (r, t') => (r, t ++ t')
          end
      end
  end.

Definition create_header (st : state) (slice_id : string) : list event :=
  (if bool_decide (is_Some (slices st !! slice_id))
   then [EvLog WARNING (MsgSliceExists slice_id)] else [])
  ++ [EvSlicesSet slice_id PyNone].

Definition delete_header (st : state) (slice_id : string) : list event :=
  if bool_decide (is_Some (slices st !! slice_id))
  then [EvSlicesDel slice_id]
  else [EvLog WARNING (MsgSliceMissing slice_id)].

Definition footer (slice_id : string) (slice_members : list string)
    : list event :=
  [EvLog INFO (MsgSliceId slice_id); EvLog INFO (MsgSliceMembers slice_members)].

Definition create_run (slice_id : string) (slice_members : list string)
    (st : state) : result unit * state * list event :=
  let st1 := set_slices (λ m, <[slice_id := PyNone]> m) st in
  match resolve_all (resource_dictionary st) slice_members with
  | Raise e => (Raise e, st1, create_header st slice_id)
  | Ok P =>
      match loop_steps (port_step rem_command (mesh_rule P) st) P with
      | (Raise e, t) => (Raise e, st1, create_header st slice_id ++ t)
      | (Ok _, t) =>
          (Ok tt, st1,
           create_header st slice_id ++ t ++ footer slice_id slice_members)
      end
  end.

Definition delete_run (slice_id : string) (slice_members : list string)
    (st : state) : result unit * state * list event :=
  let st1 := set_slices (λ m, delete slice_id m) st in
  match resolve_all (resource_dictionary st) slice_members with
  | Raise e => (Raise e, st1, delete_header st slice_id)
  | Ok P =>
      match loop_steps (port_step add_command (λ p, drop_rule p) st) P with
      | (Raise e, t) => (Raise e, st1, delete_header st slice_id ++ t)
      | (Ok _, t) =>
          (Ok tt, st1,
           delete_header st slice_id ++ t ++ footer slice_id slice_members)
      end
  end.

(** The trace discipline of the two loops: whenever an event of [t] is the
    flow message for a port [p] that has an entry [v] in the control table,
    the command script for the control port [int(v)] was sent earlier
    in [t]. *)
Definition vlan_first (st : state) (command : Z → string)
    (is_rule : Z → event → Prop) (t : list event) : Prop :=
  ∀ p v pre ev post,
    t = pre ++ ev :: post →
    is_rule p ev →
    control_resource_dictionary st !! py_str p = Some v →
    ∃ bp, py_int v = Some bp ∧ EvSshSend (command bp) ∈ pre.

(** The events of one completed loop turn. *)
Definition turn_events (command : Z → string)
    (fm : Z → Datapath → OFPFlowMod) (st : state) (d : Datapath) (p : Z)
    : list event :=
  session_events command st p ++ [EvSendMsg d (fm p d)].

(** ** The REST front end

    [NetworkManagerController.create_slice] and [delete_slice].  A request
    either has no body, or a body that is not JSON ([req.json] raises
    [ValueError]), or a JSON object; of the object only the keys
    ['slice_id'] and ['ports'] are read, and the embedding takes them, when
    present, to hold a string and a list of strings. *)
Record json_entry := mkEntry {
  entry_slice_id : option string;
  entry_ports : option (list string)
}.

Inductive request :=
  | ReqNoBody
  | ReqNotJson
  | ReqJson (new_entry : json_entry).

Inductive Response := mkResponse (status : Z).

Global Instance Response_eq_dec : EqDecision Response.
Proof. solve_decision. Defined.

(** How a handler ends: it returns a response, or an exception of the
    application leaves it, or it executes [raise Response(status=...)].
    [Response] is not an exception class, so that [raise] statement itself
    raises [TypeError]; the operand is kept for reference, no response with
    that status is produced. *)
Inductive handler_outcome :=
  | Returned (r : Response)
  | Raised (e : exn)
  | RaisedTypeError (operand : Response).

Global Instance handler_outcome_eq_dec : EqDecision handler_outcome.
Proof. solve_decision. Defined.

(** The handlers differ only in the method of the application they call. *)
Definition handle (call : string → list string → M unit) (req : request)
    : state → handler_outcome * state * list event := λ st,
  match req with
  | ReqNotJson => (RaisedTypeError (mkResponse 400), st, [])
  | _ =>
      let new_entry :=
        match req with
        | ReqJson e => e
        | _ => mkEntry None None
        end in
      match entry_slice_id new_entry with
      | None => (Raised (KeyError "slice_id"), st, [])
      | Some slice_id =>
          match entry_ports new_entry with
          | None => (Raised (KeyError "ports"), st, [])
          | Some slice_ports =>
              match call slice_id slice_ports st with
              | (Ok _, st', t) => (Returned (mkResponse 200), st', t)
              | (Raise e, st', t) => (Raised e, st', t)
              end
          end
      end
  end.

Definition create_slice (req : request)
    : state → handler_outcome * state * list event :=
  handle create_network_slice req.

Definition delete_slice (req : request)
    : state → handler_outcome * state * list event :=
  handle delete_network_slice req.

(** ** States the program can be in *)

(** From the state after start-up, by switch handshakes and by calls of the
    two slice operations with any arguments and any outcome. *)
Inductive reachable : state → Prop :=
  | reach_start : reachable initial_state
  | reach_handshake st datapath :
      reachable st → reachable (switch_features_handler datapath st).1.2
  | reach_create st slice_id slice_members :
      reachable st →
      reachable (create_network_slice slice_id slice_members st).1.2
  | reach_delete st slice_id slice_members :
      reachable st →
      reachable (delete_network_slice slice_id slice_members st).1.2.

(** ** More ways to read a run *)

(** One complete SSH session sending [cmd]. *)
Definition ssh_session (cmd : string) : list event :=
  [EvSshConnect ip_switch_brocade "dpdadm" "dpdadm"; EvSshSend cmd; EvSshClose].

Definition external_events (t : list event) : list event :=
  filter (λ ev, is_external ev = true) t.

(** Two states that differ at most in the registry. *)
Definition same_outside_registry (st1 st2 : state) : Prop :=
  resource_dictionary st1 = resource_dictionary st2 ∧
  control_resource_dictionary st1 = control_resource_dictionary st2 ∧
  dp st1 = dp st2 ∧ parser_global st1 = parser_global st2.

(** * Proofs *)

(** ** The monad *)

Lemma bind_unfold {A B} (m : M A) (f : A → M B) st :
  bind m f st =
    match m st with
    | (Ok a, st1, t1) =>
        match f a st1 with
        | (r, st2, t2) => (r, st2, t1 ++ t2)
        end
    | (Raise e, st1, t1) => (Raise e, st1, t1)
    end.
Proof. reflexivity. Qed.

Lemma host_to_port_run st name :
  host_to_port name st = (lookup_int (resource_dictionary st) name, st, []).
Proof.
  unfold host_to_port, getitem, int, lookup_int, bind, get, ret, raise.
  destruct (resource_dictionary st !! name) as [v|]; [|done].
  by destruct (py_int v).
Qed.

Lemma port_translate_to_brocade_run st p :
  port_translate_to_brocade p st
  = (lookup_int (control_resource_dictionary st) (py_str p), st, []).
Proof.
  unfold port_translate_to_brocade, getitem, int, lookup_int, bind, get, ret,
    raise.
  destruct (control_resource_dictionary st !! py_str p) as [v|]; [|done].
  by destruct (py_int v).
Qed.

Lemma list_comp_host_to_port_run st names :
  list_comp host_to_port names st
  = (resolve_all (resource_dictionary st) names, st, []).
Proof.
  induction names as [|name names IH]; [done|].
  cbn [list_comp resolve_all].
  rewrite bind_unfold, host_to_port_run.
  destruct (lookup_int (resource_dictionary st) name) as [p|e]; [|done].
  rewrite bind_unfold, IH.
  by destruct (resolve_all (resource_dictionary st) names).
Qed.

(** ** One loop turn *)

Lemma self_dp_run st :
  self_dp st
  = (match dp st with
     | Some d => Ok d
     | None => Raise (AttributeError "dp")
     end, st, []).
Proof. unfold self_dp, bind, get. by destruct (dp st). Qed.

Lemma self_parser_global_run st :
  self_parser_global st
  = (match parser_global st with
     | Some pr => Ok pr
     | None => Raise (AttributeError "parser_global")
     end, st, []).
Proof. unfold self_parser_global, bind, get. by destruct (parser_global st). Qed.

Lemma actions_loop_connected st pr (p : Z) (P : list Z) acc :
  parser_global st = Some pr →
  for_acc P (λ actions item,
      if bool_decide (item ≠ p) then
        parser <- self_parser_global ;;
        ret (actions ++ [OFPActionOutput item])
      else ret actions) acc st
  = (Ok (acc ++ (OFPActionOutput <$> filter (λ q, q ≠ p) P)), st, []).
Proof.
  intros Hpr. revert acc.
  induction P as [|q P IH]; intros acc; cbn [for_acc].
  { by rewrite filter_nil, fmap_nil, app_nil_r. }
  rewrite bind_unfold. case_bool_decide as Hq.
  - rewrite (filter_cons_True (λ q, q ≠ p) q P Hq).
    rewrite bind_unfold, self_parser_global_run, Hpr. unfold ret at 1.
    cbn [app]. rewrite IH. by rewrite fmap_cons, <- app_assoc.
  - rewrite filter_cons_False by (intros Hne; by apply Hne).
    unfold ret at 1. by rewrite IH.
Qed.

Lemma actions_loop_disconnected st (p : Z) (P : list Z) acc :
  parser_global st = None →
  ∃ r, for_acc P (λ actions item,
      if bool_decide (item ≠ p) then
        parser <- self_parser_global ;;
        ret (actions ++ [OFPActionOutput item])
      else ret actions) acc st = (r, st, []) ∧
    (is_ok r = true ∨ r = Raise (AttributeError "parser_global")).
Proof.
  intros Hpr. revert acc.
  induction P as [|q P IH]; intros acc; cbn [for_acc].
  { eexists. split; [done|by left]. }
  rewrite bind_unfold. case_bool_decide as Hq.
  - rewrite bind_unfold, self_parser_global_run, Hpr.
    eexists. split; [done|by right].
  - unfold ret at 1. destruct (IH acc) as (r & -> & Hr). by exists r.
Qed.

Lemma control_step_run {B} (command : Z → string) (k : Z → M unit)
    (rest : M B) st p :
  (∀ bp, k bp st
         = (Ok tt, st,
            [EvSshConnect ip_switch_brocade "dpdadm" "dpdadm";
             EvSshSend (command bp); EvSshClose])) →
  (in_control <- contains control_resource_dictionary (py_str p) ;;
   (if in_control : bool then
      in_port_brocade <- port_translate_to_brocade p ;; k in_port_brocade
    else ret tt) ;;
   rest) st
  = match lookup_int (control_resource_dictionary st) (py_str p) with
    | Raise (ValueError v) => (Raise (ValueError v), st, [])
    | _ =>
        match rest st with
        | (r, st', t) => (r, st', session_events command st p ++ t)
        end
    end.
Proof.
  intros Hk. unfold contains, session_events.
  rewrite !bind_unfold. unfold get at 1. unfold ret at 1. cbn [app].
  case_bool_decide as Hin.
  - rewrite !bind_unfold, port_translate_to_brocade_run.
    destruct Hin as [v Hv]. unfold lookup_int. rewrite Hv.
    destruct (py_int v) as [bp|]; [rewrite Hk|]; cbn; [|done].
    by destruct (rest st) as [[r st'] t].
  - apply eq_None_not_Some in Hin. unfold lookup_int. rewrite Hin.
    rewrite bind_unfold. unfold ret at 1. cbn.
    by destruct (rest st) as [[r st'] t].
Qed.

Lemma rem_port_from_control_run st bp :
  rem_port_from_control bp st
  = (Ok tt, st,
     [EvSshConnect ip_switch_brocade "dpdadm" "dpdadm";
      EvSshSend (rem_command bp); EvSshClose]).
Proof. reflexivity. Qed.

Lemma add_port_to_control_run st bp :
  add_port_to_control bp st
  = (Ok tt, st,
     [EvSshConnect ip_switch_brocade "dpdadm" "dpdadm";
      EvSshSend (add_command bp); EvSshClose]).
Proof. reflexivity. Qed.

Lemma create_port_run st P p :
  create_port P p st
  = ((port_step rem_command (mesh_rule P) st p).1, st,
     (port_step rem_command (mesh_rule P) st p).2).
Proof.
  unfold create_port.
  rewrite (control_step_run rem_command rem_port_from_control)
    by apply rem_port_from_control_run.
  unfold port_step.
  destruct (lookup_int (control_resource_dictionary st) (py_str p))
    as [bp|[k|v|a]] eqn:Hl; try done.
  all: destruct (parser_global st) as [pr|] eqn:Hpr.
  all: try (rewrite bind_unfold, (actions_loop_connected st pr) by done;
            rewrite bind_unfold, self_parser_global_run, Hpr;
            rewrite bind_unfold, self_dp_run;
            destruct (dp st) as [d|]; cbn; by rewrite ?app_nil_r).
  all: rewrite bind_unfold;
       destruct (actions_loop_disconnected st p P [] Hpr)
         as (r & -> & [Hr| ->]);
       [destruct r as [acts|]; [|done];
        rewrite bind_unfold, self_parser_global_run, Hpr
       |]; cbn; by rewrite ?app_nil_r.
Qed.

Lemma delete_port_run st p :
  delete_port p st
  = ((port_step add_command (λ p, drop_rule p) st p).1, st,
     (port_step add_command (λ p, drop_rule p) st p).2).
Proof.
  unfold delete_port.
  rewrite (control_step_run add_command add_port_to_control)
    by apply add_port_to_control_run.
  unfold port_step.
  destruct (lookup_int (control_resource_dictionary st) (py_str p))
    as [bp|[k|v|a]] eqn:Hl; try done.
  all: rewrite bind_unfold, self_parser_global_run;
       destruct (parser_global st) as [pr|] eqn:Hpr;
       [rewrite bind_unfold, self_dp_run; destruct (dp st) as [d|]|];
       cbn; by rewrite ?app_nil_r.
Qed.

(** ** Whole calls *)

Lemma for_each_run {A} (body : A → M unit)
    (step : A → result unit * list event) st (l : list A) :
  (∀ x, body x st = ((step x).1, st, (step x).2)) →
  for_each l body st = ((loop_steps step l).1, st, (loop_steps step l).2).
Proof.
  intros Hbody. induction l as [|x l IH]; [done|].
  cbn [for_each loop_steps]. rewrite bind_unfold, Hbody.
  destruct (step x) as [[[]|e] t]; [|done]. cbn [fst snd].
  rewrite IH. by destruct (loop_steps step l) as [r t'].
Qed.

Lemma port_step_set_slices command fm f st p :
  port_step command fm (set_slices f st) p = port_step command fm st p.
Proof. reflexivity. Qed.

Lemma create_network_slice_run slice_id slice_members st :
  create_network_slice slice_id slice_members st
  = create_run slice_id slice_members st.
Proof.
  unfold create_network_slice, create_run, create_header, contains.
  rewrite !bind_unfold. unfold get at 1. unfold ret at 1. cbn [app].
  set (st1 := set_slices (λ m, <[slice_id:=PyNone]> m) st).
  set (hdr := (if bool_decide (is_Some (slices st !! slice_id))
               then [EvLog WARNING (MsgSliceExists slice_id)] else [])).
  assert (Hrest : ∀ rest : M unit,
    ((modify (set_slices (λ m, <[slice_id:=PyNone]> m)) ;;
      emit (EvSlicesSet slice_id PyNone)) ;; rest) st
    = match rest st1 with
      | (r, st2, t) => (r, st2, EvSlicesSet slice_id PyNone :: t)
      end).
  { intros rest. rewrite !bind_unfold. unfold modify, emit. cbn [app].
    fold st1. by destruct (rest st1) as [[r st2] t]. }
  assert (Hbody :
    (slice_port_members <- list_comp host_to_port slice_members ;;
     for_each slice_port_members (create_port slice_port_members) ;;
     logger_info (MsgSliceId slice_id) ;;
     logger_info (MsgSliceMembers slice_members)) st1
    = match resolve_all (resource_dictionary st) slice_members with
      | Raise e => (Raise e, st1, [])
      | Ok P =>
          match loop_steps (port_step rem_command (mesh_rule P) st) P with
          | (Raise e, t) => (Raise e, st1, t)
          | (Ok _, t) => (Ok tt, st1, t ++ footer slice_id slice_members)
          end
      end).
  { rewrite bind_unfold, list_comp_host_to_port_run.
    change (resource_dictionary st1) with (resource_dictionary st).
    destruct (resolve_all (resource_dictionary st) slice_members) as [P|e];
      [|done].
    rewrite bind_unfold.
    rewrite (for_each_run _ (port_step rem_command (mesh_rule P) st1))
      by apply create_port_run.
    change (port_step rem_command (mesh_rule P) st1)
      with (port_step rem_command (mesh_rule P) st).
    destruct (loop_steps (port_step rem_command (mesh_rule P) st) P)
      as [[[]|e] t]; cbn; [|by rewrite ?app_nil_r]. done. }
  assert (Hhdr : ∀ rest : M unit,
    ((if bool_decide (is_Some (slices st !! slice_id))
      then logger_warning (MsgSliceExists slice_id) else ret tt) ;; rest) st
    = match rest st with
      | (r, st2, t) => (r, st2, hdr ++ t)
      end).
  { intros rest. rewrite bind_unfold. subst hdr.
    case_bool_decide; cbn; by destruct (rest st) as [[r st2] t]. }
  rewrite Hhdr, Hrest, Hbody.
  destruct (resolve_all (resource_dictionary st) slice_members) as [P|e].
  - destruct (loop_steps (port_step rem_command (mesh_rule P) st) P)
      as [[[]|e] t]; by rewrite <- ?app_assoc.
  - by rewrite <- ?app_assoc.
Qed.

Lemma set_slices_id f st : f (slices st) = slices st → set_slices f st = st.
Proof. destruct st. unfold set_slices. cbn. by intros ->. Qed.

Lemma delete_network_slice_run slice_id slice_members st :
  delete_network_slice slice_id slice_members st
  = delete_run slice_id slice_members st.
Proof.
  unfold delete_network_slice, delete_run, delete_header, contains.
  set (st1 := set_slices (λ m, delete slice_id m) st).
  assert (Hbody :
    (slice_port_members <- list_comp host_to_port slice_members ;;
     for_each slice_port_members delete_port ;;
     logger_info (MsgSliceId slice_id) ;;
     logger_info (MsgSliceMembers slice_members)) st1
    = match resolve_all (resource_dictionary st) slice_members with
      | Raise e => (Raise e, st1, [])
      | Ok P =>
          match loop_steps (port_step add_command (λ p, drop_rule p) st) P with
          | (Raise e, t) => (Raise e, st1, t)
          | (Ok _, t) => (Ok tt, st1, t ++ footer slice_id slice_members)
          end
      end).
  { rewrite bind_unfold, list_comp_host_to_port_run.
    change (resource_dictionary st1) with (resource_dictionary st).
    destruct (resolve_all (resource_dictionary st) slice_members) as [P|e];
      [|done].
    rewrite bind_unfold.
    rewrite (for_each_run _ (port_step add_command (λ p, drop_rule p) st1))
      by apply delete_port_run.
    change (port_step add_command (λ p, drop_rule p) st1)
      with (port_step add_command (λ p, drop_rule p) st).
    destruct (loop_steps (port_step add_command (λ p, drop_rule p) st) P)
      as [[[]|e] t]; cbn; [|by rewrite ?app_nil_r]. done. }
  rewrite bind_unfold. unfold get at 1. rewrite bind_unfold. unfold ret at 1.
  cbn [app]. rewrite bind_unfold.
  case_bool_decide as Hin.
  - rewrite bind_unfold. unfold modify at 1, emit at 1. fold st1.
    rewrite Hbody. cbn [app].
    destruct (resolve_all (resource_dictionary st) slice_members) as [P|e];
      [|done].
    by destruct (loop_steps (port_step add_command (λ p, drop_rule p) st) P)
      as [[[]|e] t].
  - unfold logger_warning, emit at 1.
    assert (Hst : st1 = st).
    { apply set_slices_id, delete_id. by apply eq_None_not_Some. }
    rewrite Hst in Hbody |- *. rewrite Hbody. cbn [app].
    destruct (resolve_all (resource_dictionary st) slice_members) as [P|e];
      [|done].
    by destruct (loop_steps (port_step add_command (λ p, drop_rule p) st) P)
      as [[[]|e] t].
Qed.

(** ** What a loop emits *)

Lemma port_step_inv command fm st p r t :
  port_step command fm st p = (r, t) →
  (r = Ok tt ∧ ∃ d, dp st = Some d ∧ is_Some (parser_global st) ∧
     t = turn_events command fm st d p) ∨
  (∃ e, r = Raise e ∧ (t = [] ∨ t = session_events command st p)).
Proof.
  unfold port_step, turn_events.
  destruct (lookup_int (control_resource_dictionary st) (py_str p))
    as [bp|[k|v|a]]; destruct (parser_global st) as [pr|];
    destruct (dp st) as [d|]; intros [= <- <-]; eauto 10.
Qed.

Lemma port_step_connected command fm st d pr p :
  dp st = Some d → parser_global st = Some pr →
  numeric_table (control_resource_dictionary st) →
  port_step command fm st p = (Ok tt, turn_events command fm st d p).
Proof.
  intros Hd Hpr Hnum. unfold port_step, lookup_int. rewrite Hd, Hpr.
  destruct (control_resource_dictionary st !! py_str p) as [v|] eqn:Hv;
    [|done].
  destruct (Hnum _ _ Hv) as [bp Hbp]. by rewrite Hbp.
Qed.

Lemma loop_steps_ok_inv {A} (step : A → result unit * list event) l t :
  loop_steps step l = (Ok tt, t) →
  Forall (λ x, (step x).1 = Ok tt) l ∧ t = l ≫= (λ x, (step x).2).
Proof.
  revert t. induction l as [|x l IH]; intros t; cbn [loop_steps].
  { by intros [= <-]. }
  destruct (step x) as [[[]|e] tx] eqn:Hx; [|done].
  destruct (loop_steps step l) as [r t'] eqn:Hl. intros [= -> <-].
  destruct (IH _ eq_refl) as [Hall ->]. split.
  - constructor; [by rewrite Hx|done].
  - cbn. by rewrite Hx.
Qed.

Lemma loop_steps_connected command fm st d pr (P : list Z) :
  dp st = Some d → parser_global st = Some pr →
  numeric_table (control_resource_dictionary st) →
  loop_steps (port_step command fm st) P
  = (Ok tt, P ≫= turn_events command fm st d).
Proof.
  intros Hd Hpr Hnum. induction P as [|p P IH]; [done|].
  cbn [loop_steps]. rewrite (port_step_connected _ _ _ d pr) by done.
  by rewrite IH.
Qed.

Lemma loop_steps_ok_turns command fm st (P : list Z) t :
  loop_steps (port_step command fm st) P = (Ok tt, t) →
  P = [] ∧ t = [] ∨
  ∃ d, dp st = Some d ∧ t = P ≫= turn_events command fm st d.
Proof.
  intros Hloop. destruct (loop_steps_ok_inv _ _ _ Hloop) as [Hall ->].
  destruct P as [|p0 P0]; [by left|right].
  assert (∃ d, dp st = Some d) as [d Hd].
  { apply Forall_cons in Hall as [Hp0 _].
    destruct (port_step command fm st p0) as [r0 t0] eqn:Hs.
    destruct (port_step_inv _ _ _ _ _ _ Hs) as [(_ & d & Hd & _)|(e & -> & _)];
      [by exists d|done]. }
  exists d. split; [done|].
  revert Hall. generalize (p0 :: P0). intros P Hall.
  induction Hall as [|p P Hp Hall IH]; [done|]. cbn. f_equal; [|done].
  destruct (port_step command fm st p) as [r0 t0] eqn:Hs.
  destruct (port_step_inv _ _ _ _ _ _ Hs)
    as [(_ & d' & Hd' & _ & ->)|(e & -> & _)]; [|done].
  cbn. congruence.
Qed.

Lemma rule_of_session command st p :
  omap rule_of_event (session_events command st p) = [].
Proof.
  unfold session_events.
  destruct (control_resource_dictionary st !! py_str p) as [v|]; [|done].
  by destruct (py_int v).
Qed.

Lemma removal_of_session command st p :
  omap removal_of_event (session_events command st p) = [].
Proof.
  unfold session_events.
  destruct (control_resource_dictionary st !! py_str p) as [v|]; [|done].
  by destruct (py_int v).
Qed.

Lemma output_port_actions (l : list Z) :
  output_port <$> (OFPActionOutput <$> l) = l.
Proof. induction l as [|q l IH]; [done|]. cbn. by rewrite IH. Qed.

Lemma submitted_rules_turns st d P0 (P : list Z) :
  submitted_rules (P ≫= turn_events rem_command (mesh_rule P0) st d)
  = (λ p, (p, filter (λ q, q ≠ p) P0)) <$> P.
Proof.
  unfold submitted_rules. induction P as [|p P IH]; [done|].
  cbn [mbind list_bind fmap list_fmap]. unfold turn_events at 1.
  rewrite !omap_app, rule_of_session, IH. cbn.
  by rewrite output_port_actions.
Qed.

Lemma removed_matches_turns st d (P : list Z) :
  removed_matches (P ≫= turn_events add_command (λ p, drop_rule p) st d) = P.
Proof.
  unfold removed_matches. induction P as [|p P IH]; [done|].
  cbn [mbind list_bind]. unfold turn_events at 1.
  rewrite !omap_app, removal_of_session, IH. done.
Qed.

Lemma submitted_rules_app t1 t2 :
  submitted_rules (t1 ++ t2) = submitted_rules t1 ++ submitted_rules t2.
Proof. apply omap_app. Qed.

Lemma submitted_rules_create_header st slice_id :
  submitted_rules (create_header st slice_id) = [].
Proof. unfold create_header. by case_bool_decide. Qed.

Lemma resolve_all_of_run st names P :
  list_comp host_to_port names st = (Ok P, st, []) →
  resolve_all (resource_dictionary st) names = Ok P.
Proof. rewrite list_comp_host_to_port_run. by intros [= ->]. Qed.

Lemma create_ok_inv slice_id slice_members st st' t :
  create_network_slice slice_id slice_members st = (Ok tt, st', t) →
  ∃ P tl,
    resolve_all (resource_dictionary st) slice_members = Ok P ∧
    loop_steps (port_step rem_command (mesh_rule P) st) P = (Ok tt, tl) ∧
    st' = set_slices (λ m, <[slice_id := PyNone]> m) st ∧
    t = create_header st slice_id ++ tl ++ footer slice_id slice_members.
Proof.
  rewrite create_network_slice_run. unfold create_run.
  destruct (resolve_all (resource_dictionary st) slice_members) as [P|e];
    [|done].
  destruct (loop_steps (port_step rem_command (mesh_rule P) st) P)
    as [[[]|e] tl] eqn:Hloop; [|done].
  intros [= <- <-]. by exists P, tl.
Qed.

(** ** C1: the rules of a created slice form the full mesh *)

(** C1. When the members of a slice resolve to pairwise distinct ports [P]
    and [create_network_slice] returns normally, the rules it submitted are
    exactly one per port of [P], in order, the rule matching [p] carrying
    the action ports [P] without [p]: there are [|P|] rules, their match
    ports are [P], and each action list is duplicate-free and, as a set,
    [P ∖ {p}]. *)
Theorem create_installs_full_mesh st slice_id slice_members P st' t :
  list_comp host_to_port slice_members st = (Ok P, st, []) →
  NoDup P →
  create_network_slice slice_id slice_members st = (Ok tt, st', t) →
  submitted_rules t = (λ p, (p, filter (λ q, q ≠ p) P)) <$> P ∧
  length (submitted_rules t) = length P ∧
  (submitted_rules t).*1 = P ∧
  ∀ p acts, (p, acts) ∈ submitted_rules t →
    p ∈ P ∧ NoDup acts ∧
    list_to_set acts = (list_to_set P : gset Z) ∖ {[p]}.
Proof.
  intros Hres Hnd Hrun. apply resolve_all_of_run in Hres.
  destruct (create_ok_inv _ _ _ _ _ Hrun) as (P' & tl & HP' & Hloop & _ & ->).
  assert (P' = P) as -> by congruence.
  assert (Hrules : submitted_rules
            (create_header st slice_id ++ tl ++ footer slice_id slice_members)
          = (λ p, (p, filter (λ q, q ≠ p) P)) <$> P).
  { rewrite !submitted_rules_app, submitted_rules_create_header.
    cbn [app]. unfold footer at 1. cbn [submitted_rules omap list_omap rule_of_event].
    rewrite app_nil_r.
    destruct (loop_steps_ok_turns _ _ _ _ _ Hloop) as [[-> ->]|(d & _ & ->)];
      [done|apply submitted_rules_turns]. }
  rewrite Hrules. split; [done|]. split; [by rewrite length_fmap|].
  split.
  { rewrite <- list_fmap_compose. apply list_fmap_id. }
  intros p acts [q [[= -> ->] Hq]]%list_elem_of_fmap.
  split; [done|]. split; [by apply NoDup_filter|].
  apply set_eq. intros x.
  rewrite elem_of_difference, !elem_of_list_to_set, elem_of_singleton,
    list_elem_of_filter. tauto.
Qed.

Lemma create_installs_full_mesh_witness :
  submitted_rules
    (create_network_slice "s1" ["icarus1"; "icarus5"; "entry1"]
       connected_state).2
  = [(1, [3; 9]); (3, [1; 9]); (9, [1; 3])].
Proof.
  refine (proj1 (create_installs_full_mesh connected_state "s1"
                   ["icarus1"; "icarus5"; "entry1"] [1; 3; 9]
                   (create_network_slice "s1" ["icarus1"; "icarus5"; "entry1"]
                      connected_state).1.2
                   (create_network_slice "s1" ["icarus1"; "icarus5"; "entry1"]
                      connected_state).2 _ _ _)).
  - vm_compute. reflexivity.
  - compute_done.
  - vm_compute. reflexivity.
Defined.

(** ** C2: the VLAN command precedes the flow message *)

Lemma vlan_first_nil st command is_rule : vlan_first st command is_rule [].
Proof. intros p v pre ev post Heq. by destruct pre. Qed.

Lemma vlan_first_app st command is_rule t1 t2 :
  vlan_first st command is_rule t1 →
  vlan_first st command is_rule t2 →
  vlan_first st command is_rule (t1 ++ t2).
Proof.
  intros H1 H2 p v pre ev post Heq Hrule Hv.
  apply app_eq_inv in Heq as [(k & -> & Hk)|(k & -> & ->)].
  - destruct k as [|ev' k]; cbn in Hk.
    + subst t2.
      destruct (H2 p v [] ev post eq_refl Hrule Hv) as (bp & _ & Hin).
      by apply elem_of_nil in Hin.
    + injection Hk as <- ->.
      by apply (H1 p v pre ev k eq_refl Hrule Hv).
  - destruct (H2 p v k ev post eq_refl Hrule Hv) as (bp & Hbp & Hin).
    exists bp. split; [done|]. apply elem_of_app. by right.
Qed.

Lemma vlan_first_quiet st command (is_rule : Z → event → Prop) t :
  (∀ p ev, ev ∈ t → ¬ is_rule p ev) →
  vlan_first st command is_rule t.
Proof.
  intros Hq p v pre ev post -> Hrule _. exfalso.
  apply (Hq p ev); [|done]. apply elem_of_app. right. apply list_elem_of_here.
Qed.

Lemma session_events_inv command st p ev :
  ev ∈ session_events command st p → is_external ev = true ∧
  ∀ d m, ev ≠ EvSendMsg d m.
Proof.
  unfold session_events.
  destruct (control_resource_dictionary st !! py_str p) as [v|];
    [|by intros ?%elem_of_nil].
  destruct (py_int v) as [bp|]; [|by intros ?%elem_of_nil].
  rewrite !elem_of_cons, elem_of_nil. by intros [->|[->|[->|[]]]].
Qed.

Section trace_discipline.
Context (st : state) (command : Z → string).
Context (fm : Z → Datapath → OFPFlowMod) (is_rule : Z → event → Prop).
Hypothesis rule_is_message :
  ∀ p ev, is_rule p ev → ∃ d m, ev = EvSendMsg d m.
Hypothesis rule_of_port :
  ∀ p q d, is_rule p (EvSendMsg d (fm q d)) → p = q.

Lemma vlan_first_session q :
  vlan_first st command is_rule (session_events command st q).
Proof.
  apply vlan_first_quiet. intros p ev [_ Hev]%session_events_inv Hrule.
  destruct (rule_is_message _ _ Hrule) as (d & m & ->). by apply (Hev d m).
Qed.

Lemma vlan_first_port_step q :
  vlan_first st command is_rule (port_step command fm st q).2.
Proof.
  unfold port_step, lookup_int.
  destruct (control_resource_dictionary st !! py_str q) as [v'|] eqn:Hq.
  - destruct (py_int v') as [bp|] eqn:Hbp; [|apply vlan_first_nil].
    destruct (parser_global st) as [pr|]; [|apply vlan_first_session].
    destruct (dp st) as [d|]; [|apply vlan_first_session].
    cbn [snd]. intros p v pre ev post Heq Hrule Hv.
    destruct post as [|ev' post' _] using rev_ind.
    + apply app_inj_tail in Heq as [<- <-].
      apply rule_of_port in Hrule as ->.
      assert (v = v') as -> by congruence. exists bp. split; [done|].
      unfold session_events. rewrite Hq, Hbp. set_solver.
    + rewrite app_comm_cons, app_assoc in Heq.
      apply app_inj_tail in Heq as [Heq _].
      by apply (vlan_first_session q p v pre ev post').
  - destruct (parser_global st) as [pr|]; [|apply vlan_first_session].
    destruct (dp st) as [d|]; [|apply vlan_first_session].
    cbn [snd]. intros p v pre ev post Heq Hrule Hv.
    destruct post as [|ev' post' _] using rev_ind.
    + apply app_inj_tail in Heq as [<- <-].
      apply rule_of_port in Hrule as ->. congruence.
    + rewrite app_comm_cons, app_assoc in Heq.
      apply app_inj_tail in Heq as [Heq _].
      by apply (vlan_first_session q p v pre ev post').
Qed.

Lemma vlan_first_loop (P : list Z) :
  vlan_first st command is_rule (loop_steps (port_step command fm st) P).2.
Proof.
  induction P as [|q P IH]; [apply vlan_first_nil|].
  cbn [loop_steps]. pose proof (vlan_first_port_step q) as Hq.
  destruct (port_step command fm st q) as [[[]|e] tq]; [|done].
  destruct (loop_steps (port_step command fm st) P) as [r t'].
  by apply vlan_first_app.
Qed.
End trace_discipline.

Lemma submits_rule_message p ev :
  submits_rule p ev → ∃ d m, ev = EvSendMsg d m.
Proof. intros [acts Hev]. destruct ev; try done. eauto. Qed.

Lemma removes_rule_message p ev :
  removes_rule p ev → ∃ d m, ev = EvSendMsg d m.
Proof. unfold removes_rule. destruct ev; try done. eauto. Qed.

Lemma submits_mesh_rule P p q d :
  submits_rule p (EvSendMsg d (mesh_rule P q d)) → p = q.
Proof. by intros [acts [= ->]]. Qed.

Lemma removes_drop_rule p q d :
  removes_rule p (EvSendMsg d (drop_rule q d)) → p = q.
Proof. by intros [= ->]. Qed.

Lemma vlan_first_create_header st slice_id command is_rule :
  (∀ p ev, is_rule p ev → ∃ d m, ev = EvSendMsg d m) →
  vlan_first st command is_rule (create_header st slice_id).
Proof.
  intros Hmsg. apply vlan_first_quiet. intros p ev Hev Hrule.
  destruct (Hmsg _ _ Hrule) as (d & m & ->).
  unfold create_header in Hev. case_bool_decide; cbn in Hev;
    rewrite ?elem_of_cons, elem_of_nil in Hev; by intuition.
Qed.

Lemma vlan_first_delete_header st slice_id command is_rule :
  (∀ p ev, is_rule p ev → ∃ d m, ev = EvSendMsg d m) →
  vlan_first st command is_rule (delete_header st slice_id).
Proof.
  intros Hmsg. apply vlan_first_quiet. intros p ev Hev Hrule.
  destruct (Hmsg _ _ Hrule) as (d & m & ->).
  unfold delete_header in Hev. case_bool_decide;
    rewrite ?elem_of_cons, elem_of_nil in Hev; by intuition.
Qed.

Lemma vlan_first_footer st slice_id slice_members command is_rule :
  (∀ p ev, is_rule p ev → ∃ d m, ev = EvSendMsg d m) →
  vlan_first st command is_rule (footer slice_id slice_members).
Proof.
  intros Hmsg. apply vlan_first_quiet. intros p ev Hev Hrule.
  destruct (Hmsg _ _ Hrule) as (d & m & ->).
  unfold footer in Hev.
  rewrite ?elem_of_cons, elem_of_nil in Hev; by intuition.
Qed.

Lemma create_vlan_first slice_id slice_members st :
  vlan_first st rem_command submits_rule
    (create_network_slice slice_id slice_members st).2.
Proof.
  rewrite create_network_slice_run. unfold create_run.
  destruct (resolve_all (resource_dictionary st) slice_members) as [P|e].
  - pose proof (vlan_first_loop st rem_command (mesh_rule P) submits_rule
                  submits_rule_message (submits_mesh_rule P) P) as Hloop.
    destruct (loop_steps (port_step rem_command (mesh_rule P) st) P)
      as [[[]|e] t]; cbn [snd] in *.
    + apply vlan_first_app;
        [apply vlan_first_create_header, submits_rule_message|].
      apply vlan_first_app; [done|].
      apply vlan_first_footer, submits_rule_message.
    + apply vlan_first_app; [|done].
      apply vlan_first_create_header, submits_rule_message.
  - apply vlan_first_create_header, submits_rule_message.
Qed.

Lemma delete_vlan_first slice_id slice_members st :
  vlan_first st add_command removes_rule
    (delete_network_slice slice_id slice_members st).2.
Proof.
  rewrite delete_network_slice_run. unfold delete_run.
  destruct (resolve_all (resource_dictionary st) slice_members) as [P|e].
  - pose proof (vlan_first_loop st add_command (λ p, drop_rule p) removes_rule
                  removes_rule_message removes_drop_rule P) as Hloop.
    destruct (loop_steps (port_step add_command (λ p, drop_rule p) st) P)
      as [[[]|e] t]; cbn [snd] in *.
    + apply vlan_first_app;
        [apply vlan_first_delete_header, removes_rule_message|].
      apply vlan_first_app; [done|].
      apply vlan_first_footer, removes_rule_message.
    + apply vlan_first_app; [|done].
      apply vlan_first_delete_header, removes_rule_message.
  - apply vlan_first_delete_header, removes_rule_message.
Qed.

Lemma delete_ok_inv slice_id slice_members st st' t :
  delete_network_slice slice_id slice_members st = (Ok tt, st', t) →
  ∃ P tl,
    resolve_all (resource_dictionary st) slice_members = Ok P ∧
    loop_steps (port_step add_command (λ p, drop_rule p) st) P = (Ok tt, tl) ∧
    st' = set_slices (λ m, delete slice_id m) st ∧
    t = delete_header st slice_id ++ tl ++ footer slice_id slice_members.
Proof.
  rewrite delete_network_slice_run. unfold delete_run.
  destruct (resolve_all (resource_dictionary st) slice_members) as [P|e];
    [|done].
  destruct (loop_steps (port_step add_command (λ p, drop_rule p) st) P)
    as [[[]|e] tl] eqn:Hloop; [|done].
  intros [= <- <-]. by exists P, tl.
Qed.

Lemma turn_message_in_loop command fm st (P : list Z) tl p :
  loop_steps (port_step command fm st) P = (Ok tt, tl) → p ∈ P →
  ∃ d, EvSendMsg d (fm p d) ∈ tl.
Proof.
  intros Hloop Hp.
  destruct (loop_steps_ok_turns _ _ _ _ _ Hloop) as [[-> ->]|(d & _ & ->)].
  { by apply elem_of_nil in Hp. }
  exists d. apply list_elem_of_bind. exists p. split; [|done].
  unfold turn_events. apply elem_of_app. right. apply list_elem_of_here.
Qed.

(** C2. For a port [p] with an entry [v] in the control table: in every run
    of [create_network_slice], whatever its outcome, a flow message
    installing the rule that matches [p] is preceded in the run's events by
    the script removing control port [int(v)] from the control VLAN; in
    every run of [delete_network_slice], a flow message removing the rule
    that matches [p] is preceded by the script adding [int(v)] back.  When
    the call returns normally and [p] is one of the member ports, both
    events do occur, in that order. *)
Theorem vlan_command_precedes_rule st slice_id slice_members p v :
  control_resource_dictionary st !! py_str p = Some v →
  (∀ r st' pre ev post,
     create_network_slice slice_id slice_members st
       = (r, st', pre ++ ev :: post) →
     submits_rule p ev →
     ∃ bp, py_int v = Some bp ∧ EvSshSend (rem_command bp) ∈ pre) ∧
  (∀ r st' pre ev post,
     delete_network_slice slice_id slice_members st
       = (r, st', pre ++ ev :: post) →
     removes_rule p ev →
     ∃ bp, py_int v = Some bp ∧ EvSshSend (add_command bp) ∈ pre) ∧
  (∀ P st' t,
     list_comp host_to_port slice_members st = (Ok P, st, []) → p ∈ P →
     create_network_slice slice_id slice_members st = (Ok tt, st', t) →
     ∃ pre ev post bp,
       t = pre ++ ev :: post ∧ submits_rule p ev ∧
       py_int v = Some bp ∧ EvSshSend (rem_command bp) ∈ pre) ∧
  (∀ P st' t,
     list_comp host_to_port slice_members st = (Ok P, st, []) → p ∈ P →
     delete_network_slice slice_id slice_members st = (Ok tt, st', t) →
     ∃ pre ev post bp,
       t = pre ++ ev :: post ∧ removes_rule p ev ∧
       py_int v = Some bp ∧ EvSshSend (add_command bp) ∈ pre).
Proof.
  intros Hv.
  assert (Hcreate : ∀ r st' pre ev post,
     create_network_slice slice_id slice_members st
       = (r, st', pre ++ ev :: post) →
     submits_rule p ev →
     ∃ bp, py_int v = Some bp ∧ EvSshSend (rem_command bp) ∈ pre).
  { intros r st' pre ev post Hrun Hrule.
    pose proof (create_vlan_first slice_id slice_members st) as Hfirst.
    rewrite Hrun in Hfirst. by apply (Hfirst p v pre ev post). }
  assert (Hdelete : ∀ r st' pre ev post,
     delete_network_slice slice_id slice_members st
       = (r, st', pre ++ ev :: post) →
     removes_rule p ev →
     ∃ bp, py_int v = Some bp ∧ EvSshSend (add_command bp) ∈ pre).
  { intros r st' pre ev post Hrun Hrule.
    pose proof (delete_vlan_first slice_id slice_members st) as Hfirst.
    rewrite Hrun in Hfirst. by apply (Hfirst p v pre ev post). }
  split; [done|]. split; [done|]. split.
  - intros P st' t Hres Hp Hrun. apply resolve_all_of_run in Hres.
    destruct (create_ok_inv _ _ _ _ _ Hrun) as (P' & tl & HP' & Hloop & _ & Ht).
    assert (P' = P) as -> by congruence.
    destruct (turn_message_in_loop _ _ _ _ _ _ Hloop Hp) as [d Hin].
    assert (Hin' : EvSendMsg d (mesh_rule P p d) ∈ t).
    { rewrite Ht, !elem_of_app. auto. }
    apply list_elem_of_split in Hin' as (pre & post & ->).
    assert (Hrule : submits_rule p (EvSendMsg d (mesh_rule P p d))).
    { by eexists. }
    destruct (Hcreate _ _ _ _ _ Hrun Hrule) as (bp & Hbp & Hsend).
    by exists pre, (EvSendMsg d (mesh_rule P p d)), post, bp.
  - intros P st' t Hres Hp Hrun. apply resolve_all_of_run in Hres.
    destruct (delete_ok_inv _ _ _ _ _ Hrun) as (P' & tl & HP' & Hloop & _ & Ht).
    assert (P' = P) as -> by congruence.
    destruct (turn_message_in_loop _ _ _ _ _ _ Hloop Hp) as [d Hin].
    assert (Hin' : EvSendMsg d (drop_rule p d) ∈ t).
    { rewrite Ht, !elem_of_app. auto. }
    apply list_elem_of_split in Hin' as (pre & post & ->).
    assert (Hrule : removes_rule p (EvSendMsg d (drop_rule p d))) by done.
    destruct (Hdelete _ _ _ _ _ Hrun Hrule) as (bp & Hbp & Hsend).
    by exists pre, (EvSendMsg d (drop_rule p d)), post, bp.
Qed.

Lemma vlan_command_precedes_rule_witness :
  (∃ pre ev post bp,
     (create_network_slice "s1" ["icarus1"; "icarus5"] connected_state).2
       = pre ++ ev :: post ∧ submits_rule 1 ev ∧
     py_int "7" = Some bp ∧ EvSshSend (rem_command bp) ∈ pre) ∧
  (∃ pre ev post bp,
     (delete_network_slice "s1" ["icarus1"; "icarus5"] connected_state).2
       = pre ++ ev :: post ∧ removes_rule 1 ev ∧
     py_int "7" = Some bp ∧ EvSshSend (add_command bp) ∈ pre).
Proof.
  assert (Hv : control_resource_dictionary connected_state !! py_str 1
               = Some "7") by (vm_compute; reflexivity).
  destruct (vlan_command_precedes_rule connected_state "s1"
              ["icarus1"; "icarus5"] 1 "7" Hv) as (_ & _ & Hc & Hd).
  split.
  - apply (Hc [1; 3]
             (create_network_slice "s1" ["icarus1"; "icarus5"]
                connected_state).1.2).
    + vm_compute; reflexivity.
    + apply list_elem_of_here.
    + vm_compute; reflexivity.
  - apply (Hd [1; 3]
             (delete_network_slice "s1" ["icarus1"; "icarus5"]
                connected_state).1.2).
    + vm_compute; reflexivity.
    + apply list_elem_of_here.
    + vm_compute; reflexivity.
Defined.

(** ** C3: what the registry records *)

Lemma create_any_inv slice_id slice_members st r st' t :
  create_network_slice slice_id slice_members st = (r, st', t) →
  st' = set_slices (λ m, <[slice_id := PyNone]> m) st ∧
  ∃ rest, t = create_header st slice_id ++ rest.
Proof.
  rewrite create_network_slice_run. unfold create_run.
  destruct (resolve_all (resource_dictionary st) slice_members) as [P|e].
  - destruct (loop_steps (port_step rem_command (mesh_rule P) st) P)
      as [[[]|e] tl]; intros [= <- <- <-]; eauto.
  - intros [= <- <- <-]. split; [done|]. exists []. by rewrite app_nil_r.
Qed.

(** C3, claim as stated, at a concrete call: the create succeeds, yet the
    registry holds [None] under the slice id, not the member list. *)
Lemma registry_does_not_record_members :
  (create_network_slice "s1" ["icarus1"; "icarus5"] connected_state).1.1
    = Ok tt ∧
  slices (create_network_slice "s1" ["icarus1"; "icarus5"]
            connected_state).1.2 !! "s1" = Some PyNone ∧
  slices (create_network_slice "s1" ["icarus1"; "icarus5"]
            connected_state).1.2 !! "s1"
    ≠ Some (PyList ["icarus1"; "icarus5"]).
Proof.
  split; [vm_compute; reflexivity|].
  split; [vm_compute; reflexivity|]. vm_compute. discriminate.
Qed.

(** C3, amended. After any run of [create_network_slice] (normal return or
    exception) the registry is the old one with the slice id bound to
    [None]; the member list is not stored.  The write is the first thing the
    call does after the optional warning: every event before it in the run
    is not an external call. *)
Theorem create_registers_id_first st slice_id slice_members r st' t :
  create_network_slice slice_id slice_members st = (r, st', t) →
  slices st' = <[slice_id := PyNone]> (slices st) ∧
  slices st' !! slice_id = Some PyNone ∧
  ∃ pre post,
    t = pre ++ EvSlicesSet slice_id PyNone :: post ∧ no_external_call pre.
Proof.
  intros Hrun. destruct (create_any_inv _ _ _ _ _ _ Hrun) as [-> [rest ->]].
  split; [done|]. split; [apply lookup_insert_eq|].
  unfold create_header.
  exists (if bool_decide (is_Some (slices st !! slice_id))
          then [EvLog WARNING (MsgSliceExists slice_id)] else []), rest.
  split; [by rewrite <- app_assoc|].
  unfold no_external_call. case_bool_decide; by repeat constructor.
Qed.

Lemma create_registers_id_first_witness :
  slices (create_network_slice "s1" ["icarus1"; "bogus"] initial_state).1.2
  = <["s1" := PyNone]> (slices initial_state).
Proof.
  refine (proj1 (create_registers_id_first initial_state "s1"
                   ["icarus1"; "bogus"]
                   (create_network_slice "s1" ["icarus1"; "bogus"]
                      initial_state).1.1 _
                   (create_network_slice "s1" ["icarus1"; "bogus"]
                      initial_state).2 _)).
  vm_compute; reflexivity.
Defined.

(** ** C4 and C9: an unmapped member name *)

Lemma resolve_all_unmapped (d : gmap string string) names name0 :
  numeric_table d → name0 ∈ names → d !! name0 = None →
  ∃ name, resolve_all d names = Raise (KeyError name) ∧
          name ∈ names ∧ d !! name = None.
Proof.
  intros Hnum Hin Hnone. induction names as [|name names IH].
  { by apply elem_of_nil in Hin. }
  cbn [resolve_all]. unfold lookup_int.
  destruct (d !! name) as [v|] eqn:Hname.
  - destruct (Hnum _ _ Hname) as [n ->].
    apply elem_of_cons in Hin as [->|Hin]; [congruence|].
    destruct (IH Hin) as (name' & -> & Hin' & Hnone').
    exists name'. split; [done|]. split; [by apply list_elem_of_further|done].
  - exists name. split; [done|]. split; [apply list_elem_of_here|done].
Qed.

Lemma no_external_create_header st slice_id :
  no_external_call (create_header st slice_id).
Proof.
  unfold no_external_call, create_header.
  case_bool_decide; by repeat constructor.
Qed.

(** C4. With a resource table of integer literals: when some member name
    has no entry in it, [create_network_slice] raises [KeyError] for an
    unmapped member name, and the events of the run are the optional
    warning and the registry write only: no flow message is sent and no SSH
    session is opened. *)
Theorem unmapped_member_aborts_create st slice_id slice_members name0 :
  numeric_table (resource_dictionary st) →
  name0 ∈ slice_members →
  resource_dictionary st !! name0 = None →
  ∃ name st',
    create_network_slice slice_id slice_members st
      = (Raise (KeyError name), st', create_header st slice_id) ∧
    name ∈ slice_members ∧ resource_dictionary st !! name = None ∧
    no_external_call (create_header st slice_id) ∧
    submitted_rules (create_header st slice_id) = [].
Proof.
  intros Hnum Hin Hnone.
  destruct (resolve_all_unmapped _ _ _ Hnum Hin Hnone)
    as (name & Hres & Hin' & Hnone').
  exists name, (set_slices (λ m, <[slice_id := PyNone]> m) st).
  rewrite create_network_slice_run. unfold create_run. rewrite Hres.
  split; [done|]. split; [done|]. split; [done|].
  split; [apply no_external_create_header
         |apply submitted_rules_create_header].
Qed.

Lemma unmapped_member_aborts_create_witness :
  ∃ name st',
    create_network_slice "s1" ["icarus1"; "bogus"; "icarus5"] connected_state
      = (Raise (KeyError name), st', create_header connected_state "s1") ∧
    name ∈ ["icarus1"; "bogus"; "icarus5"] ∧
    resource_dictionary connected_state !! name = None ∧
    no_external_call (create_header connected_state "s1") ∧
    submitted_rules (create_header connected_state "s1") = [].
Proof.
  apply (unmapped_member_aborts_create connected_state "s1"
           ["icarus1"; "bogus"; "icarus5"] "bogus").
  - unfold numeric_table. compute_done.
  - compute_done.
  - vm_compute; reflexivity.
Defined.

(** C9. With a resource table of integer literals: when some member name
    has no entry in it, [create_network_slice] raises [KeyError] and leaves
    the registry with the slice id bound to [None]; for an id that was not
    registered before, the registry after the failed call differs from the
    one before it. *)
Theorem failed_create_leaves_id_registered st slice_id slice_members name0 :
  numeric_table (resource_dictionary st) →
  name0 ∈ slice_members →
  resource_dictionary st !! name0 = None →
  ∃ name st' t,
    create_network_slice slice_id slice_members st
      = (Raise (KeyError name), st', t) ∧
    slices st' = <[slice_id := PyNone]> (slices st) ∧
    slices st' !! slice_id = Some PyNone ∧
    (slices st !! slice_id = None → slices st' ≠ slices st).
Proof.
  intros Hnum Hin Hnone.
  destruct (resolve_all_unmapped _ _ _ Hnum Hin Hnone)
    as (name & Hres & _ & _).
  exists name, (set_slices (λ m, <[slice_id := PyNone]> m) st),
    (create_header st slice_id).
  rewrite create_network_slice_run. unfold create_run. rewrite Hres.
  split; [done|]. split; [done|]. split; [apply lookup_insert_eq|].
  intros Hfresh Heq. cbn in Heq.
  assert (Hl : (<[slice_id := PyNone]> (slices st)) !! slice_id = Some PyNone)
    by apply lookup_insert_eq.
  rewrite Heq in Hl. congruence.
Qed.

Lemma failed_create_leaves_id_registered_witness :
  ∃ name st' t,
    create_network_slice "s1" ["icarus1"; "bogus"] connected_state
      = (Raise (KeyError name), st', t) ∧
    slices st' = <["s1" := PyNone]> (slices connected_state) ∧
    slices st' !! "s1" = Some PyNone ∧
    (slices connected_state !! "s1" = None →
     slices st' ≠ slices connected_state).
Proof.
  apply (failed_create_leaves_id_registered connected_state "s1"
           ["icarus1"; "bogus"] "bogus").
  - unfold numeric_table. compute_done.
  - compute_done.
  - vm_compute; reflexivity.
Defined.

(** ** C5: the control-port lookup *)

(** C5, claim as stated, at a concrete port: physical port 9 (the port of
    [entry1]) has no control-port entry, and the lookup raises. *)
Lemma control_lookup_raises_on_unmapped_port :
  host_to_port "entry1" connected_state = (Ok 9, connected_state, []) ∧
  port_translate_to_brocade 9 connected_state
    = (Raise (KeyError "9"), connected_state, []).
Proof. split; vm_compute; reflexivity. Qed.

Lemma port_step_no_key_error command fm st p e t :
  port_step command fm st p = (Raise e, t) → ∀ k, e ≠ KeyError k.
Proof.
  unfold port_step.
  destruct (lookup_int (control_resource_dictionary st) (py_str p))
    as [bp|[k'|v|a]]; destruct (parser_global st) as [pr|];
    destruct (dp st) as [d|]; intros [= <- <-]; done.
Qed.

(** C5, amended. With a control table of integer literals:
    [port_translate_to_brocade] returns the control port for every port
    that has an entry and raises [KeyError] for every port that has none.
    Absence is signalled by the membership test
    [str(port) in control_resource_dictionary], which never raises; a loop
    turn of [create_network_slice] or [delete_network_slice] makes that test
    first, and never raises [KeyError].  The control port returned for a
    port with entry [v] is [int(v)]. *)
Theorem control_lookup_is_guarded st p :
  numeric_table (control_resource_dictionary st) →
  contains control_resource_dictionary (py_str p) st
    = (Ok (bool_decide (is_Some (control_resource_dictionary st !! py_str p))),
       st, []) ∧
  (is_Some (control_resource_dictionary st !! py_str p) →
   ∃ bp, port_translate_to_brocade p st = (Ok bp, st, [])) ∧
  (control_resource_dictionary st !! py_str p = None →
   port_translate_to_brocade p st = (Raise (KeyError (py_str p)), st, [])) ∧
  (∀ P e st' t, create_port P p st = (Raise e, st', t) → ∀ k, e ≠ KeyError k) ∧
  (∀ e st' t, delete_port p st = (Raise e, st', t) → ∀ k, e ≠ KeyError k) ∧
  (∀ v, control_resource_dictionary st !! py_str p = Some v →
   ∃ bp, py_int v = Some bp ∧
         port_translate_to_brocade p st = (Ok bp, st, [])).
Proof.
  intros Hnum. split; [done|]. split; [|split; [|split; [|split]]].
  - intros [v Hv]. destruct (Hnum _ _ Hv) as [bp Hbp]. exists bp.
    rewrite port_translate_to_brocade_run. unfold lookup_int.
    by rewrite Hv, Hbp.
  - intros Hnone. rewrite port_translate_to_brocade_run. unfold lookup_int.
    by rewrite Hnone.
  - intros P e st' t. rewrite create_port_run.
    destruct (port_step rem_command (mesh_rule P) st p) as [r t0] eqn:Hs.
    intros [= -> <- <-]. by apply (port_step_no_key_error _ _ _ _ _ _ Hs).
  - intros e st' t. rewrite delete_port_run.
    destruct (port_step add_command (λ p, drop_rule p) st p) as [r t0] eqn:Hs.
    intros [= -> <- <-]. by apply (port_step_no_key_error _ _ _ _ _ _ Hs).
  - intros v Hv. destruct (Hnum _ _ Hv) as [bp Hbp]. exists bp.
    split; [done|]. rewrite port_translate_to_brocade_run. unfold lookup_int.
    by rewrite Hv, Hbp.
Qed.

Lemma control_lookup_is_guarded_witness :
  port_translate_to_brocade 9 connected_state
    = (Raise (KeyError (py_str 9)), connected_state, []) ∧
  port_translate_to_brocade 1 connected_state = (Ok 7, connected_state, []).
Proof.
  assert (Hnum : numeric_table (control_resource_dictionary connected_state)).
  { unfold numeric_table. compute_done. }
  split.
  - apply (control_lookup_is_guarded connected_state 9 Hnum).
    vm_compute; reflexivity.
  - destruct (control_lookup_is_guarded connected_state 1 Hnum)
      as (_ & _ & _ & _ & _ & Hval).
    destruct (Hval "7") as (bp & Hbp & Hrun); [vm_compute; reflexivity|].
    assert (bp = 7) as -> by (vm_compute in Hbp; congruence).
    exact Hrun.
Defined.

(** ** C6 and C7: deleting an unregistered slice *)

Lemma resolve_all_mapped (d : gmap string string) names :
  numeric_table d → Forall (λ name, is_Some (d !! name)) names →
  ∃ P, resolve_all d names = Ok P ∧ length P = length names.
Proof.
  intros Hnum Hall. induction Hall as [|name names [v Hv] Hall IH].
  { by exists []. }
  destruct IH as (P & HP & Hlen). destruct (Hnum _ _ Hv) as [n Hn].
  exists (n :: P). cbn [resolve_all]. unfold lookup_int.
  rewrite Hv, Hn, HP. split; [done|]. cbn. by rewrite Hlen.
Qed.

Lemma delete_network_slice_ok st d pr slice_id slice_members :
  numeric_table (resource_dictionary st) →
  numeric_table (control_resource_dictionary st) →
  dp st = Some d → parser_global st = Some pr →
  Forall (λ name, is_Some (resource_dictionary st !! name)) slice_members →
  ∃ P,
    list_comp host_to_port slice_members st = (Ok P, st, []) ∧
    delete_network_slice slice_id slice_members st
    = (Ok tt, set_slices (λ m, delete slice_id m) st,
       delete_header st slice_id
       ++ (P ≫= turn_events add_command (λ p, drop_rule p) st d)
       ++ footer slice_id slice_members).
Proof.
  intros Hres Hctl Hd Hpr Hall.
  destruct (resolve_all_mapped _ _ Hres Hall) as (P & HP & _). exists P.
  rewrite list_comp_host_to_port_run, HP. split; [done|].
  rewrite delete_network_slice_run. unfold delete_run. rewrite HP.
  by rewrite (loop_steps_connected _ _ _ d pr).
Qed.









(** ** C8: creating over a registered id *)

Lemma create_header_registered st slice_id :
  is_Some (slices st !! slice_id) →
  create_header st slice_id
  = [EvLog WARNING (MsgSliceExists slice_id); EvSlicesSet slice_id PyNone].
Proof. intros Hin. unfold create_header. by rewrite bool_decide_true. Qed.

Lemma create_header_fresh st slice_id :
  slices st !! slice_id = None →
  create_header st slice_id = [EvSlicesSet slice_id PyNone].
Proof.
  intros Hnone. unfold create_header. rewrite bool_decide_false; [done|].
  rewrite Hnone. by intros [? [=]].
Qed.

(** C8. When the slice id is already in the registry,
    [create_network_slice] does what it does on the same state with the id
    absent (same outcome, same final state, same events) except that its
    run starts with the warning record; the registry entry of the id is
    overwritten with [None]. *)
Theorem create_on_registered_id_warns_and_proceeds
    st slice_id slice_members r st' t :
  is_Some (slices st !! slice_id) →
  create_network_slice slice_id slice_members
    (set_slices (λ m, delete slice_id m) st) = (r, st', t) →
  create_network_slice slice_id slice_members st
    = (r, st', EvLog WARNING (MsgSliceExists slice_id) :: t) ∧
  slices st' = <[slice_id := PyNone]> (slices st) ∧
  ∃ post, t = EvSlicesSet slice_id PyNone :: post.
Proof.
  intros Hin. rewrite !create_network_slice_run. unfold create_run.
  set (st0 := set_slices (λ m, delete slice_id m) st).
  change (resource_dictionary st0) with (resource_dictionary st).
  assert (Hst : set_slices (λ m, <[slice_id := PyNone]> m) st0
                = set_slices (λ m, <[slice_id := PyNone]> m) st).
  { unfold set_slices, st0. cbn. f_equal. apply insert_delete_eq. }
  rewrite Hst, (create_header_registered st) by done.
  rewrite (create_header_fresh st0) by apply lookup_delete_eq.
  destruct (resolve_all (resource_dictionary st) slice_members) as [P|e].
  - change (port_step rem_command (mesh_rule P) st0)
      with (port_step rem_command (mesh_rule P) st).
    destruct (loop_steps (port_step rem_command (mesh_rule P) st) P)
      as [[[]|e] tl]; intros [= <- <- <-]; eauto.
  - intros [= <- <- <-]. eauto.
Qed.

Lemma create_on_registered_id_warns_and_proceeds_witness :
  (create_network_slice "s1" ["icarus8"; "entry2"]
     (create_network_slice "s1" ["icarus1"; "icarus5"]
        connected_state).1.2).1.1 = Ok tt ∧
  ∃ t,
    (create_network_slice "s1" ["icarus8"; "entry2"]
       (create_network_slice "s1" ["icarus1"; "icarus5"]
          connected_state).1.2).2
    = EvLog WARNING (MsgSliceExists "s1") :: t.
Proof.
  pose (st := (create_network_slice "s1" ["icarus1"; "icarus5"]
                 connected_state).1.2).
  pose (run0 := create_network_slice "s1" ["icarus8"; "entry2"]
                  (set_slices (λ m, delete "s1" m) st)).
  destruct (create_on_registered_id_warns_and_proceeds st "s1"
              ["icarus8"; "entry2"] run0.1.1 run0.1.2 run0.2)
    as (Hrun & _ & _).
  - compute_done.
  - vm_compute; reflexivity.
  - fold st. rewrite Hrun. split; [vm_compute; reflexivity|by eexists].
Defined.

(** ** C10: the two static tables *)

Lemma delete_any_inv slice_id slice_members st r st' t :
  delete_network_slice slice_id slice_members st = (r, st', t) →
  st' = set_slices (λ m, delete slice_id m) st.
Proof.
  rewrite delete_network_slice_run. unfold delete_run.
  destruct (resolve_all (resource_dictionary st) slice_members) as [P|e].
  - destruct (loop_steps (port_step add_command (λ p, drop_rule p) st) P)
      as [[[]|e] tl]; by intros [= <- <- <-].
  - by intros [= <- <- <-].
Qed.

(** C10. Whatever the state and the arguments, and whatever the outcome,
    a run of [create_network_slice] or of [delete_network_slice] ends in a
    state whose [resource_dictionary] and [control_resource_dictionary]
    are those it started with. *)
Theorem static_tables_never_mutated st slice_id slice_members :
  resource_dictionary (create_network_slice slice_id slice_members st).1.2
    = resource_dictionary st ∧
  control_resource_dictionary
    (create_network_slice slice_id slice_members st).1.2
    = control_resource_dictionary st ∧
  resource_dictionary (delete_network_slice slice_id slice_members st).1.2
    = resource_dictionary st ∧
  control_resource_dictionary
    (delete_network_slice slice_id slice_members st).1.2
    = control_resource_dictionary st.
Proof.
  destruct (create_network_slice slice_id slice_members st)
    as [[rc stc] tc] eqn:Hc.
  destruct (delete_network_slice slice_id slice_members st)
    as [[rd std] td] eqn:Hd.
  apply create_any_inv in Hc as [-> _]. apply delete_any_inv in Hd as ->.
  done.
Qed.

(** * Further properties of the code *)

(** ** A create in a connected state *)

Lemma turn_events_shape command fm st d p :
  numeric_table (control_resource_dictionary st) →
  match control_resource_dictionary st !! py_str p with
  | Some v =>
      ∃ bp, py_int v = Some bp ∧
        turn_events command fm st d p
        = ssh_session (command bp) ++ [EvSendMsg d (fm p d)]
  | None => turn_events command fm st d p = [EvSendMsg d (fm p d)]
  end.
Proof.
  intros Hnum. unfold turn_events, session_events.
  destruct (control_resource_dictionary st !! py_str p) as [v|] eqn:Hv;
    [|done].
  destruct (Hnum _ _ Hv) as [bp Hbp]. exists bp. by rewrite Hbp.
Qed.

Lemma create_network_slice_ok st d pr slice_id slice_members :
  numeric_table (resource_dictionary st) →
  numeric_table (control_resource_dictionary st) →
  dp st = Some d → parser_global st = Some pr →
  Forall (λ name, is_Some (resource_dictionary st !! name)) slice_members →
  ∃ P,
    resolve_all (resource_dictionary st) slice_members = Ok P ∧
    length P = length slice_members ∧
    create_network_slice slice_id slice_members st
    = (Ok tt, set_slices (λ m, <[slice_id := PyNone]> m) st,
       create_header st slice_id
       ++ (P ≫= turn_events rem_command (mesh_rule P) st d)
       ++ footer slice_id slice_members).
Proof.
  intros Hres Hctl Hd Hpr Hall.
  destruct (resolve_all_mapped _ _ Hres Hall) as (P & HP & Hlen). exists P.
  split; [done|]. split; [done|].
  rewrite create_network_slice_run. unfold create_run. rewrite HP.
  by rewrite (loop_steps_connected _ _ _ d pr).
Qed.

(** X1. In a state where the switch has connected and both tables hold
    integer literals, [create_network_slice] with member names that are all
    mapped returns normally.  It resolves one port per member, binds the id
    to [None] in the registry, and its events are the header (optional
    warning, registry write), then per port, in order, the session removing
    the port's control port from the control VLAN (only when the port has a
    control entry) followed by the flow message installing the port's mesh
    rule, then the two info records. *)
Theorem create_succeeds_when_connected st d pr slice_id slice_members :
  numeric_table (resource_dictionary st) →
  numeric_table (control_resource_dictionary st) →
  dp st = Some d → parser_global st = Some pr →
  Forall (λ name, is_Some (resource_dictionary st !! name)) slice_members →
  ∃ P st',
    list_comp host_to_port slice_members st = (Ok P, st, []) ∧
    length P = length slice_members ∧
    create_network_slice slice_id slice_members st
    = (Ok tt, st',
       create_header st slice_id
       ++ (P ≫= turn_events rem_command (mesh_rule P) st d)
       ++ footer slice_id slice_members) ∧
    slices st' = <[slice_id := PyNone]> (slices st) ∧
    ∀ p, p ∈ P →
      match control_resource_dictionary st !! py_str p with
      | Some v =>
          ∃ bp, py_int v = Some bp ∧
            turn_events rem_command (mesh_rule P) st d p
            = ssh_session (rem_command bp) ++ [EvSendMsg d (mesh_rule P p d)]
      | None =>
          turn_events rem_command (mesh_rule P) st d p
          = [EvSendMsg d (mesh_rule P p d)]
      end.
Proof.
  intros Hres Hctl Hd Hpr Hall.
  destruct (create_network_slice_ok st d pr slice_id slice_members
              Hres Hctl Hd Hpr Hall) as (P & HP & Hlen & Hrun).
  exists P, (set_slices (λ m, <[slice_id := PyNone]> m) st).
  split; [by rewrite list_comp_host_to_port_run, HP|].
  split; [done|]. split; [done|]. split; [done|].
  intros p _. by apply turn_events_shape.
Qed.

Lemma create_succeeds_when_connected_witness :
  (create_network_slice "s1" ["icarus9"; "entry2"] connected_state).1.1
  = Ok tt.
Proof.
  destruct (create_succeeds_when_connected connected_state pronto
              ofproto_v1_0_parser "s1" ["icarus9"; "entry2"])
    as (P & st' & _ & _ & Hrun & _).
  - unfold numeric_table. compute_done.
  - unfold numeric_table. compute_done.
  - reflexivity.
  - reflexivity.
  - compute_done.
  - by rewrite Hrun.
Defined.

(** ** Edge cases: no member, no switch, unmapped member on delete *)

(** X2. With an empty member list, in any state (connected or not),
    [create_network_slice] returns normally, binds the id to [None] and
    makes no external call; [delete_network_slice] returns normally,
    removes the id and makes no external call.  The events of each run are
    its header and the two info records. *)
Theorem empty_member_list_only_touches_registry st slice_id :
  create_network_slice slice_id [] st
  = (Ok tt, set_slices (λ m, <[slice_id := PyNone]> m) st,
     create_header st slice_id ++ footer slice_id []) ∧
  delete_network_slice slice_id [] st
  = (Ok tt, set_slices (λ m, delete slice_id m) st,
     delete_header st slice_id ++ footer slice_id []) ∧
  no_external_call (create_network_slice slice_id [] st).2 ∧
  no_external_call (delete_network_slice slice_id [] st).2.
Proof.
  rewrite create_network_slice_run, delete_network_slice_run.
  unfold create_run, delete_run. cbn [resolve_all loop_steps app snd].
  split; [done|]. split; [done|]. unfold no_external_call.
  split.
  - apply Forall_app. split; [apply no_external_create_header|].
    by repeat constructor.
  - apply Forall_app. split; [|by repeat constructor].
    unfold delete_header. case_bool_decide; by repeat constructor.
Qed.

Lemma port_step_before_handshake command fm st p :
  parser_global st = None →
  numeric_table (control_resource_dictionary st) →
  port_step command fm st p
  = (Raise (AttributeError "parser_global"), session_events command st p).
Proof.
  intros Hpr Hnum. unfold port_step, lookup_int. rewrite Hpr.
  destruct (control_resource_dictionary st !! py_str p) as [v|] eqn:Hv;
    [|done].
  destruct (Hnum _ _ Hv) as [bp Hbp]. by rewrite Hbp.
Qed.

Lemma session_events_shape command st p :
  numeric_table (control_resource_dictionary st) →
  match control_resource_dictionary st !! py_str p with
  | Some v =>
      ∃ bp, py_int v = Some bp ∧
        session_events command st p = ssh_session (command bp)
  | None => session_events command st p = []
  end.
Proof.
  intros Hnum. unfold session_events.
  destruct (control_resource_dictionary st !! py_str p) as [v|] eqn:Hv;
    [|done].
  destruct (Hnum _ _ Hv) as [bp Hbp]. exists bp. by rewrite Hbp.
Qed.

(** X3. Before any switch handshake ([parser_global] not yet set), with a
    control table of integer literals and a member list that resolves to at
    least one port: [create_network_slice] and [delete_network_slice] raise
    [AttributeError] in the first loop turn.  By then the registry has been
    updated and, when the first port has a control entry, the SSH session
    changing its control-VLAN membership has been run; no flow message is
    sent and the remaining ports are not touched. *)
Theorem slice_call_before_handshake st slice_id slice_members p P :
  parser_global st = None →
  numeric_table (control_resource_dictionary st) →
  list_comp host_to_port slice_members st = (Ok (p :: P), st, []) →
  create_network_slice slice_id slice_members st
  = (Raise (AttributeError "parser_global"),
     set_slices (λ m, <[slice_id := PyNone]> m) st,
     create_header st slice_id ++ session_events rem_command st p) ∧
  delete_network_slice slice_id slice_members st
  = (Raise (AttributeError "parser_global"),
     set_slices (λ m, delete slice_id m) st,
     delete_header st slice_id ++ session_events add_command st p) ∧
  match control_resource_dictionary st !! py_str p with
  | Some v =>
      ∃ bp, py_int v = Some bp ∧
        session_events rem_command st p = ssh_session (rem_command bp) ∧
        session_events add_command st p = ssh_session (add_command bp)
  | None =>
      session_events rem_command st p = [] ∧
      session_events add_command st p = []
  end.
Proof.
  intros Hpr Hnum Hres. apply resolve_all_of_run in Hres.
  rewrite create_network_slice_run, delete_network_slice_run.
  unfold create_run, delete_run. rewrite Hres. cbn [loop_steps].
  rewrite !port_step_before_handshake by done.
  split; [done|]. split; [done|].
  pose proof (session_events_shape rem_command st p Hnum) as Hrem.
  pose proof (session_events_shape add_command st p Hnum) as Hadd.
  destruct (control_resource_dictionary st !! py_str p) as [v|]; [|done].
  destruct Hrem as (bp & Hbp & Hrem), Hadd as (bp' & Hbp' & Hadd).
  exists bp. assert (bp' = bp) as -> by congruence. done.
Qed.

Lemma slice_call_before_handshake_witness :
  create_network_slice "s1" ["icarus1"; "icarus5"] initial_state
  = (Raise (AttributeError "parser_global"),
     set_slices (λ m, <["s1" := PyNone]> m) initial_state,
     create_header initial_state "s1"
     ++ session_events rem_command initial_state 1).
Proof.
  refine (proj1 (slice_call_before_handshake initial_state "s1"
                   ["icarus1"; "icarus5"] 1 [3] _ _ _)).
  - reflexivity.
  - unfold numeric_table. compute_done.
  - vm_compute; reflexivity.
Defined.

(** X4. With a resource table of integer literals: when some member name
    has no entry in it, [delete_network_slice] raises [KeyError] for an
    unmapped member name after it has already dropped the slice id from the
    registry, and makes no external call: the entry is gone although no
    rule was removed and no port was restored to the control VLAN. *)
Theorem unmapped_member_aborts_delete st slice_id slice_members name0 :
  numeric_table (resource_dictionary st) →
  name0 ∈ slice_members →
  resource_dictionary st !! name0 = None →
  ∃ name st',
    delete_network_slice slice_id slice_members st
      = (Raise (KeyError name), st', delete_header st slice_id) ∧
    name ∈ slice_members ∧ resource_dictionary st !! name = None ∧
    slices st' = delete slice_id (slices st) ∧
    slices st' !! slice_id = None ∧
    no_external_call (delete_header st slice_id).
Proof.
  intros Hnum Hin Hnone.
  destruct (resolve_all_unmapped _ _ _ Hnum Hin Hnone)
    as (name & Hres & Hin' & Hnone').
  exists name, (set_slices (λ m, delete slice_id m) st).
  rewrite delete_network_slice_run. unfold delete_run. rewrite Hres.
  split; [done|]. split; [done|]. split; [done|]. split; [done|].
  split; [apply lookup_delete_eq|].
  unfold no_external_call, delete_header.
  case_bool_decide; by repeat constructor.
Qed.

Lemma unmapped_member_aborts_delete_witness :
  ∃ name st',
    delete_network_slice "s1" ["icarus1"; "bogus"]
      (create_network_slice "s1" ["icarus1"] connected_state).1.2
      = (Raise (KeyError name), st',
         delete_header
           (create_network_slice "s1" ["icarus1"] connected_state).1.2 "s1") ∧
    slices st' !! "s1" = None.
Proof.
  destruct (unmapped_member_aborts_delete
              (create_network_slice "s1" ["icarus1"] connected_state).1.2
              "s1" ["icarus1"; "bogus"] "bogus")
    as (name & st' & Hrun & _ & _ & _ & Hgone & _).
  - unfold numeric_table. compute_done.
  - compute_done.
  - vm_compute; reflexivity.
  - by exists name, st'.
Defined.

(** ** What a run can contain *)

Lemma port_step_event_inv command fm st p ev :
  ev ∈ (port_step command fm st p).2 →
  ev ∈ session_events command st p ∨
  ∃ d, dp st = Some d ∧ ev = EvSendMsg d (fm p d).
Proof.
  destruct (port_step command fm st p) as [r t] eqn:Hs. cbn [snd].
  destruct (port_step_inv _ _ _ _ _ _ Hs)
    as [(_ & d & Hd & _ & ->)|(e & _ & [->| ->])].
  - unfold turn_events. rewrite elem_of_app, list_elem_of_singleton.
    intros [?| ->]; [by left|right; by exists d].
  - by intros ?%elem_of_nil.
  - by left.
Qed.

Lemma loop_event_inv command fm st (P : list Z) ev :
  ev ∈ (loop_steps (port_step command fm st) P).2 →
  ∃ p, p ∈ P ∧
    (ev ∈ session_events command st p ∨
     ∃ d, dp st = Some d ∧ ev = EvSendMsg d (fm p d)).
Proof.
  induction P as [|p P IH]; cbn [loop_steps].
  { by intros ?%elem_of_nil. }
  pose proof (port_step_event_inv command fm st p ev) as Hp.
  destruct (port_step command fm st p) as [[[]|e] tp]; cbn [snd] in *.
  - destruct (loop_steps (port_step command fm st) P) as [r t']. cbn [snd] in *.
    rewrite elem_of_app. intros [Hin|Hin].
    + exists p. split; [apply list_elem_of_here|by apply Hp].
    + destruct (IH Hin) as (q & Hq & Hev). exists q.
      split; [by apply list_elem_of_further|done].
  - intros Hin. exists p. split; [apply list_elem_of_here|by apply Hp].
Qed.

Lemma create_event_inv st slice_id slice_members ev :
  ev ∈ (create_network_slice slice_id slice_members st).2 →
  ev ∈ create_header st slice_id ∨ ev ∈ footer slice_id slice_members ∨
  ∃ P p, resolve_all (resource_dictionary st) slice_members = Ok P ∧ p ∈ P ∧
    (ev ∈ session_events rem_command st p ∨
     ∃ d, dp st = Some d ∧ ev = EvSendMsg d (mesh_rule P p d)).
Proof.
  rewrite create_network_slice_run. unfold create_run.
  destruct (resolve_all (resource_dictionary st) slice_members) as [P|e];
    [|by left].
  pose proof (loop_event_inv rem_command (mesh_rule P) st P ev) as Hloop.
  destruct (loop_steps (port_step rem_command (mesh_rule P) st) P)
    as [[[]|e] t]; cbn [snd] in *; rewrite ?elem_of_app.
  - intros [?|[Hin|?]]; [by left| |by right; left].
    destruct (Hloop Hin) as (p & Hp & Hev). right. right. by exists P, p.
  - intros [?|Hin]; [by left|].
    destruct (Hloop Hin) as (p & Hp & Hev). right. right. by exists P, p.
Qed.

Lemma delete_event_inv st slice_id slice_members ev :
  ev ∈ (delete_network_slice slice_id slice_members st).2 →
  ev ∈ delete_header st slice_id ∨ ev ∈ footer slice_id slice_members ∨
  ∃ P p, resolve_all (resource_dictionary st) slice_members = Ok P ∧ p ∈ P ∧
    (ev ∈ session_events add_command st p ∨
     ∃ d, dp st = Some d ∧ ev = EvSendMsg d (drop_rule p d)).
Proof.
  rewrite delete_network_slice_run. unfold delete_run.
  destruct (resolve_all (resource_dictionary st) slice_members) as [P|e];
    [|by left].
  pose proof (loop_event_inv add_command (λ p, drop_rule p) st P ev) as Hloop.
  destruct (loop_steps (port_step add_command (λ p, drop_rule p) st) P)
    as [[[]|e] t]; cbn [snd] in *; rewrite ?elem_of_app.
  - intros [?|[Hin|?]]; [by left| |by right; left].
    destruct (Hloop Hin) as (p & Hp & Hev). right. right. by exists P, p.
  - intros [?|Hin]; [by left|].
    destruct (Hloop Hin) as (p & Hp & Hev). right. right. by exists P, p.
Qed.

Lemma header_footer_not_external st slice_id slice_members ev :
  ev ∈ create_header st slice_id ∨ ev ∈ delete_header st slice_id ∨
  ev ∈ footer slice_id slice_members →
  is_external ev = false.
Proof.
  unfold create_header, delete_header, footer.
  intros [Hin|[Hin|Hin]]; repeat case_bool_decide; cbn in Hin;
    rewrite ?elem_of_cons, elem_of_nil in Hin;
    repeat destruct Hin as [->|Hin]; done.
Qed.

Lemma session_event_send command st p cmd :
  EvSshSend cmd ∈ session_events command st p → ∃ bp, cmd = command bp.
Proof.
  unfold session_events.
  destruct (control_resource_dictionary st !! py_str p) as [v|];
    [|by intros ?%elem_of_nil].
  destruct (py_int v) as [bp|]; [|by intros ?%elem_of_nil].
  rewrite !elem_of_cons, elem_of_nil.
  intros [[=]|[[= ->]|[[=]|[]]]]. by exists bp.
Qed.

Lemma rem_command_not_add_command bp bp' : rem_command bp ≠ add_command bp'.
Proof. unfold rem_command, add_command. cbn. intros [=]. Qed.

Lemma omap_none_nil {A B} (f : A → option B) (l : list A) :
  (∀ x, x ∈ l → f x = None) → omap f l = [].
Proof.
  induction l as [|x l IH]; [done|]. intros Hall. cbn.
  rewrite (Hall x) by apply list_elem_of_here.
  apply IH. intros y Hy. apply Hall. by apply list_elem_of_further.
Qed.

Lemma session_event_is_ssh command st p ev :
  ev ∈ session_events command st p →
  rule_of_event ev = None ∧ removal_of_event ev = None ∧
  (∀ sid v, ev ≠ EvSlicesSet sid v) ∧ (∀ sid, ev ≠ EvSlicesDel sid).
Proof.
  unfold session_events.
  destruct (control_resource_dictionary st !! py_str p) as [v|];
    [|by intros ?%elem_of_nil].
  destruct (py_int v) as [bp|]; [|by intros ?%elem_of_nil].
  rewrite !elem_of_cons, elem_of_nil. by intros [->|[->|[->|[]]]].
Qed.

(** X5. Whatever the state, the arguments and the outcome:
    a run of [create_network_slice] asks for no rule removal, sends no
    script that adds a port to the control VLAN and never deletes a registry
    entry; a run of [delete_network_slice] installs no rule, sends no script
    that removes a port from the control VLAN and never writes a registry
    entry. *)
Theorem create_and_delete_never_cross st slice_id slice_members :
  removed_matches (create_network_slice slice_id slice_members st).2 = [] ∧
  (∀ bp, EvSshSend (add_command bp)
         ∉ (create_network_slice slice_id slice_members st).2) ∧
  (∀ sid, EvSlicesDel sid
          ∉ (create_network_slice slice_id slice_members st).2) ∧
  submitted_rules (delete_network_slice slice_id slice_members st).2 = [] ∧
  (∀ bp, EvSshSend (rem_command bp)
         ∉ (delete_network_slice slice_id slice_members st).2) ∧
  (∀ sid v, EvSlicesSet sid v
            ∉ (delete_network_slice slice_id slice_members st).2).
Proof.
  assert (Hhf : ∀ ev,
    ev ∈ create_header st slice_id ∨ ev ∈ delete_header st slice_id ∨
    ev ∈ footer slice_id slice_members →
    rule_of_event ev = None ∧ removal_of_event ev = None ∧
    ∀ cmd, ev ≠ EvSshSend cmd).
  { intros ev Hev.
    pose proof (header_footer_not_external _ _ _ _ Hev) as Hext.
    by destruct ev. }
  split; [|split; [|split; [|split; [|split]]]].
  - apply omap_none_nil. intros ev Hev.
    apply create_event_inv in Hev
      as [Hev|[Hev|(P & p & _ & _ & [Hev|(d & _ & ->)])]].
    + by apply Hhf; left.
    + by apply Hhf; right; right.
    + by apply session_event_is_ssh in Hev as (? & ? & _).
    + done.
  - intros bp Hev.
    apply create_event_inv in Hev
      as [Hev|[Hev|(P & p & _ & _ & [Hev|(d & _ & [=])])]].
    + by eapply Hhf; [left|].
    + by eapply Hhf; [right; right|].
    + apply session_event_send in Hev as [bp' Heq].
      by apply (rem_command_not_add_command bp' bp).
  - intros sid Hev.
    apply create_event_inv in Hev
      as [Hev|[Hev|(P & p & _ & _ & [Hev|(d & _ & [=])])]].
    + unfold create_header in Hev. case_bool_decide; cbn in Hev;
        rewrite ?elem_of_cons, elem_of_nil in Hev;
        repeat destruct Hev as [[=]|Hev]; done.
    + unfold footer in Hev. rewrite ?elem_of_cons, elem_of_nil in Hev.
      repeat destruct Hev as [[=]|Hev]; done.
    + apply session_event_is_ssh in Hev as (_ & _ & _ & Hdel).
      by apply (Hdel sid).
  - apply omap_none_nil. intros ev Hev.
    apply delete_event_inv in Hev
      as [Hev|[Hev|(P & p & _ & _ & [Hev|(d & _ & ->)])]].
    + by apply Hhf; right; left.
    + by apply Hhf; right; right.
    + by apply session_event_is_ssh in Hev as (? & ? & _).
    + done.
  - intros bp Hev.
    apply delete_event_inv in Hev
      as [Hev|[Hev|(P & p & _ & _ & [Hev|(d & _ & [=])])]].
    + by eapply Hhf; [right; left|].
    + by eapply Hhf; [right; right|].
    + apply session_event_send in Hev as [bp' Heq].
      by apply (rem_command_not_add_command bp bp').
  - intros sid v Hev.
    apply delete_event_inv in Hev
      as [Hev|[Hev|(P & p & _ & _ & [Hev|(d & _ & [=])])]].
    + unfold delete_header in Hev. case_bool_decide;
        rewrite ?elem_of_cons, elem_of_nil in Hev;
        repeat destruct Hev as [[=]|Hev]; done.
    + unfold footer in Hev. rewrite ?elem_of_cons, elem_of_nil in Hev.
      repeat destruct Hev as [[=]|Hev]; done.
    + apply session_event_is_ssh in Hev as (_ & _ & Hset & _).
      by apply (Hset sid v).
Qed.

(** X6. In any run of [create_network_slice], whatever its outcome and
    whether or not member ports repeat: every rule it submitted matches a
    port [p] the members resolve to, and its action ports are the resolved
    ports other than [p], in order.  So no rule forwards to its own match
    port and no rule forwards to a port outside the slice. *)
Theorem submitted_rule_is_mesh_rule st slice_id slice_members p acts :
  ((p, acts)
   ∈ submitted_rules (create_network_slice slice_id slice_members st).2) →
  ∃ P,
    list_comp host_to_port slice_members st = (Ok P, st, []) ∧
    p ∈ P ∧ acts = filter (λ q, q ≠ p) P ∧
    (p ∉ acts) ∧ ∀ q, q ∈ acts → q ∈ P.
Proof.
  intros (ev & Hev & Hrule)%list_elem_of_omap.
  apply create_event_inv in Hev
    as [Hev|[Hev|(P & p' & HP & Hp' & [Hev|(d & _ & ->)])]].
  - pose proof (header_footer_not_external st slice_id slice_members ev
                  (or_introl Hev)) as Hext. by destruct ev.
  - pose proof (header_footer_not_external st slice_id slice_members ev
                  (or_intror (or_intror Hev))) as Hext. by destruct ev.
  - apply session_event_is_ssh in Hev as [Hnone _]. congruence.
  - cbn in Hrule. rewrite output_port_actions in Hrule.
    injection Hrule as -> <-. exists P.
    split; [by rewrite list_comp_host_to_port_run, HP|].
    split; [done|]. split; [done|]. split.
    + rewrite list_elem_of_filter. by intros [Hne _].
    + intros q. rewrite list_elem_of_filter. by intros [_ Hq].
Qed.

Lemma submitted_rule_is_mesh_rule_witness :
  ∃ P,
    list_comp host_to_port ["icarus1"; "icarus1"; "entry1"] connected_state
      = (Ok P, connected_state, []) ∧
    1 ∈ P ∧ [9] = filter (λ q, q ≠ 1) P ∧
    (1 ∉ [9]) ∧ ∀ q, q ∈ [9] → q ∈ P.
Proof.
  apply (submitted_rule_is_mesh_rule connected_state "s1"
           ["icarus1"; "icarus1"; "entry1"] 1 [9]).
  vm_compute. apply list_elem_of_here.
Defined.

(** X7. Every OpenFlow message of a run goes to the datapath stored by the
    last switch handshake and names that datapath.  In a run of
    [create_network_slice] it is an add ([command] left at its default) with
    priority 1 and both timeouts 0, so an installed rule never expires; in
    a run of [delete_network_slice] it is a delete. *)
Theorem flow_messages_go_to_connected_switch
    st slice_id slice_members d m :
  (EvSendMsg d m ∈ (create_network_slice slice_id slice_members st).2 →
   dp st = Some d ∧ fm_datapath m = d ∧ fm_command m = None ∧
   fm_priority m = Some 1 ∧
   fm_idle_timeout m = Some 0 ∧ fm_hard_timeout m = Some 0) ∧
  (EvSendMsg d m ∈ (delete_network_slice slice_id slice_members st).2 →
   dp st = Some d ∧ fm_datapath m = d ∧ fm_command m = Some OFPFC_DELETE).
Proof.
  split.
  - intros Hev.
    apply create_event_inv in Hev
      as [Hev|[Hev|(P & p & _ & _ & [Hev|(d' & Hd & [= <- ->])])]].
    + by pose proof (header_footer_not_external st slice_id slice_members _
                       (or_introl Hev)).
    + by pose proof (header_footer_not_external st slice_id slice_members _
                       (or_intror (or_intror Hev))).
    + apply session_events_inv in Hev as [_ Hne]. by destruct (Hne d m).
    + done.
  - intros Hev.
    apply delete_event_inv in Hev
      as [Hev|[Hev|(P & p & _ & _ & [Hev|(d' & Hd & [= <- ->])])]].
    + by pose proof (header_footer_not_external st slice_id slice_members _
                       (or_intror (or_introl Hev))).
    + by pose proof (header_footer_not_external st slice_id slice_members _
                       (or_intror (or_intror Hev))).
    + apply session_events_inv in Hev as [_ Hne]. by destruct (Hne d m).
    + done.
Qed.

Lemma flow_messages_go_to_connected_switch_witness :
  dp connected_state = Some pronto ∧
  fm_datapath (mesh_rule [1; 3] 1 pronto) = pronto ∧
  fm_command (mesh_rule [1; 3] 1 pronto) = None ∧
  fm_priority (mesh_rule [1; 3] 1 pronto) = Some 1 ∧
  fm_idle_timeout (mesh_rule [1; 3] 1 pronto) = Some 0 ∧
  fm_hard_timeout (mesh_rule [1; 3] 1 pronto) = Some 0.
Proof.
  apply (proj1 (flow_messages_go_to_connected_switch connected_state "s1"
                  ["icarus1"; "icarus5"] pronto (mesh_rule [1; 3] 1 pronto))).
  vm_compute. do 4 apply list_elem_of_further. apply list_elem_of_here.
Defined.

Lemma no_external_header_footer st slice_id slice_members :
  no_external_call (create_header st slice_id) ∧
  no_external_call (delete_header st slice_id) ∧
  no_external_call (footer slice_id slice_members).
Proof.
  unfold no_external_call, create_header, delete_header, footer.
  repeat case_bool_decide; by repeat constructor.
Qed.

(** ** The registry and the switches are independent *)

(** X9. A run of [create_network_slice] or of [delete_network_slice] on
    one slice id, whatever its outcome, leaves the registry entry of every
    other id as it was; after a delete, whatever its outcome, the id itself
    is not in the registry. *)
Theorem other_slices_untouched st slice_id slice_members other :
  other ≠ slice_id →
  slices (create_network_slice slice_id slice_members st).1.2 !! other
    = slices st !! other ∧
  slices (delete_network_slice slice_id slice_members st).1.2 !! other
    = slices st !! other ∧
  slices (delete_network_slice slice_id slice_members st).1.2 !! slice_id
    = None.
Proof.
  intros Hne.
  destruct (create_network_slice slice_id slice_members st)
    as [[rc stc] tc] eqn:Hc.
  destruct (delete_network_slice slice_id slice_members st)
    as [[rd std] td] eqn:Hd.
  apply create_any_inv in Hc as [-> _]. apply delete_any_inv in Hd as ->.
  cbn. split; [by apply lookup_insert_ne|].
  split; [by apply lookup_delete_ne|apply lookup_delete_eq].
Qed.

Lemma other_slices_untouched_witness :
  slices (delete_network_slice "s2" ["icarus8"]
            (create_network_slice "s1" ["icarus1"] connected_state).1.2).1.2
    !! "s1"
  = slices (create_network_slice "s1" ["icarus1"] connected_state).1.2
      !! "s1".
Proof.
  refine (proj1 (proj2 (other_slices_untouched
                          (create_network_slice "s1" ["icarus1"]
                             connected_state).1.2
                          "s2" ["icarus8"] "s1" _))).
  discriminate.
Defined.

Lemma port_step_same command fm st1 st2 p :
  same_outside_registry st1 st2 →
  port_step command fm st1 p = port_step command fm st2 p.
Proof.
  intros (_ & Hctl & Hdp & Hpr). unfold port_step, session_events.
  by rewrite Hctl, Hdp, Hpr.
Qed.

Lemma loop_steps_ext {A} (step1 step2 : A → result unit * list event) l :
  (∀ x, step1 x = step2 x) → loop_steps step1 l = loop_steps step2 l.
Proof.
  intros Hext. induction l as [|x l IH]; [done|].
  cbn [loop_steps]. by rewrite Hext, IH.
Qed.

Lemma external_events_app t1 t2 :
  external_events (t1 ++ t2) = external_events t1 ++ external_events t2.
Proof. apply filter_app. Qed.

Lemma external_events_quiet t :
  no_external_call t → external_events t = [].
Proof.
  unfold no_external_call, external_events.
  induction 1 as [|ev t Hev _ IH]; [done|].
  rewrite filter_cons_False; [done|]. by rewrite Hev.
Qed.

(** X10. What a slice operation does to the two switches does not depend on
    the slice id nor on the registry: two runs of [create_network_slice]
    (or two runs of [delete_network_slice]) with the same member list, on
    states that differ at most in the registry, and with any two slice ids,
    end with the same result and make the same external calls in the same
    order. *)
Theorem switch_effects_ignore_registry
    st1 st2 slice_id1 slice_id2 slice_members :
  same_outside_registry st1 st2 →
  ((create_network_slice slice_id1 slice_members st1).1.1
   = (create_network_slice slice_id2 slice_members st2).1.1 ∧
   external_events (create_network_slice slice_id1 slice_members st1).2
   = external_events (create_network_slice slice_id2 slice_members st2).2) ∧
  ((delete_network_slice slice_id1 slice_members st1).1.1
   = (delete_network_slice slice_id2 slice_members st2).1.1 ∧
   external_events (delete_network_slice slice_id1 slice_members st1).2
   = external_events (delete_network_slice slice_id2 slice_members st2).2).
Proof.
  intros Hsame. pose proof Hsame as (Hres & _).
  destruct (no_external_header_footer st1 slice_id1 slice_members)
    as (Hc1 & Hd1 & Hf1).
  destruct (no_external_header_footer st2 slice_id2 slice_members)
    as (Hc2 & Hd2 & Hf2).
  apply external_events_quiet in Hc1, Hd1, Hf1, Hc2, Hd2, Hf2.
  rewrite !create_network_slice_run, !delete_network_slice_run.
  unfold create_run, delete_run. rewrite Hres.
  destruct (resolve_all (resource_dictionary st2) slice_members) as [P|e];
    cbn [fst snd]; [|by rewrite Hc1, Hc2, Hd1, Hd2].
  rewrite (loop_steps_ext (port_step rem_command (mesh_rule P) st1)
             (port_step rem_command (mesh_rule P) st2))
    by (intros p; by apply port_step_same).
  rewrite (loop_steps_ext (port_step add_command (λ p, drop_rule p) st1)
             (port_step add_command (λ p, drop_rule p) st2))
    by (intros p; by apply port_step_same).
  split.
  - destruct (loop_steps (port_step rem_command (mesh_rule P) st2) P)
      as [[[]|e] t]; cbn [fst snd];
      by rewrite !external_events_app, ?Hc1, ?Hc2, ?Hf1, ?Hf2.
  - destruct (loop_steps (port_step add_command (λ p, drop_rule p) st2) P)
      as [[[]|e] t]; cbn [fst snd];
      by rewrite !external_events_app, ?Hd1, ?Hd2, ?Hf1, ?Hf2.
Qed.

Lemma switch_effects_ignore_registry_witness :
  external_events
    (delete_network_slice "s1" ["icarus1"; "entry1"]
       (create_network_slice "s1" ["icarus1"; "entry1"] connected_state).1.2).2
  = external_events
      (delete_network_slice "never" ["icarus1"; "entry1"] connected_state).2.
Proof.
  refine (proj2 (proj2 (switch_effects_ignore_registry
                          (create_network_slice "s1" ["icarus1"; "entry1"]
                             connected_state).1.2
                          connected_state "s1" "never"
                          ["icarus1"; "entry1"] _))).
  repeat split; vm_compute; reflexivity.
Defined.

(** ** Create, then delete *)

Lemma set_slices_delete_insert st slice_id v :
  slices st !! slice_id = None →
  set_slices (λ m, delete slice_id m)
    (set_slices (λ m, <[slice_id := v]> m) st) = st.
Proof.
  intros Hfresh. destruct st as [rd cd sl d pr]. unfold set_slices. cbn in *.
  by rewrite delete_insert_id.
Qed.

(** X11. In a state where the switch has connected and both tables hold
    integer literals, for an id not yet in the registry and member names
    that are all mapped: [create_network_slice] followed by
    [delete_network_slice] with the same arguments both return normally and
    end in exactly the starting state.  The delete walks the same ports in
    the same order as the create: per port it re-adds to the control VLAN
    the control port the create removed and removes the rule matching the
    port, so the matches it removes are the match ports of the rules the
    create installed. *)
Theorem create_then_delete_restores st d pr slice_id slice_members :
  slices st !! slice_id = None →
  numeric_table (resource_dictionary st) →
  numeric_table (control_resource_dictionary st) →
  dp st = Some d → parser_global st = Some pr →
  Forall (λ name, is_Some (resource_dictionary st !! name)) slice_members →
  ∃ P st1 t1 t2,
    create_network_slice slice_id slice_members st = (Ok tt, st1, t1) ∧
    delete_network_slice slice_id slice_members st1 = (Ok tt, st, t2) ∧
    t1 = EvSlicesSet slice_id PyNone
         :: (P ≫= turn_events rem_command (mesh_rule P) st d)
         ++ footer slice_id slice_members ∧
    t2 = EvSlicesDel slice_id
         :: (P ≫= turn_events add_command (λ p, drop_rule p) st d)
         ++ footer slice_id slice_members ∧
    removed_matches t2 = (submitted_rules t1).*1.
Proof.
  intros Hfresh Hres Hctl Hd Hpr Hall.
  destruct (create_network_slice_ok st d pr slice_id slice_members
              Hres Hctl Hd Hpr Hall) as (P & HP & _ & Hrun1).
  set (st1 := set_slices (λ m, <[slice_id := PyNone]> m) st) in *.
  destruct (delete_network_slice_ok st1 d pr slice_id slice_members
              Hres Hctl Hd Hpr Hall) as (P' & HP' & Hrun2).
  rewrite list_comp_host_to_port_run in HP'.
  assert (P' = P) as -> by (cbn in HP'; congruence).
  rewrite (create_header_fresh st) in Hrun1 by done.
  assert (Hhdr : delete_header st1 slice_id = [EvSlicesDel slice_id]).
  { unfold delete_header. rewrite bool_decide_true; [done|].
    exists PyNone. apply lookup_insert_eq. }
  rewrite Hhdr in Hrun2.
  unfold st1 in Hrun2 at 2. rewrite set_slices_delete_insert in Hrun2 by done.
  change (turn_events add_command (λ p, drop_rule p) st1 d)
    with (turn_events add_command (λ p, drop_rule p) st d) in Hrun2.
  eexists P, st1, _, _. split; [exact Hrun1|]. split; [exact Hrun2|].
  split; [done|]. split; [done|].
  cbn [app]. unfold removed_matches, submitted_rules.
  cbn [omap list_omap removal_of_event rule_of_event].
  rewrite !omap_app.
  fold (removed_matches (P ≫= turn_events add_command (λ p, drop_rule p) st d)).
  fold (submitted_rules (P ≫= turn_events rem_command (mesh_rule P) st d)).
  rewrite removed_matches_turns, submitted_rules_turns. unfold footer. cbn.
  rewrite !app_nil_r, <- list_fmap_compose. symmetry. apply list_fmap_id.
Qed.

Lemma create_then_delete_restores_witness :
  ∃ P st1 t1 t2,
    create_network_slice "s1" ["icarus1"; "entry1"] connected_state
      = (Ok tt, st1, t1) ∧
    delete_network_slice "s1" ["icarus1"; "entry1"] st1
      = (Ok tt, connected_state, t2) ∧
    t1 = EvSlicesSet "s1" PyNone
         :: (P ≫= turn_events rem_command (mesh_rule P) connected_state pronto)
         ++ footer "s1" ["icarus1"; "entry1"] ∧
    t2 = EvSlicesDel "s1"
         :: (P ≫= turn_events add_command (λ p, drop_rule p)
                    connected_state pronto)
         ++ footer "s1" ["icarus1"; "entry1"] ∧
    removed_matches t2 = (submitted_rules t1).*1.
Proof.
  apply (create_then_delete_restores connected_state pronto
           ofproto_v1_0_parser "s1" ["icarus1"; "entry1"]).
  - vm_compute; reflexivity.
  - unfold numeric_table. compute_done.
  - unfold numeric_table. compute_done.
  - reflexivity.
  - reflexivity.
  - compute_done.
Defined.

(** ** Reachable states *)

Lemma switch_features_handler_run datapath st :
  switch_features_handler datapath st
  = (Ok tt,
     mkState (resource_dictionary st) (control_resource_dictionary st)
       (slices st) (Some datapath) (Some (ofproto_parser datapath)), []).
Proof. reflexivity. Qed.

Lemma reachable_tables st :
  reachable st →
  resource_dictionary st = resource_dictionary initial_state ∧
  control_resource_dictionary st = control_resource_dictionary initial_state.
Proof.
  induction 1 as [|st datapath _ IH|st sid ms _ IH|st sid ms _ IH]; [done|..].
  - by rewrite switch_features_handler_run.
  - destruct (create_network_slice sid ms st) as [[r st'] t] eqn:Hrun.
    by apply create_any_inv in Hrun as [-> _].
  - destruct (delete_network_slice sid ms st) as [[r st'] t] eqn:Hrun.
    by apply delete_any_inv in Hrun as ->.
Qed.

Lemma initial_tables_numeric :
  numeric_table (resource_dictionary initial_state) ∧
  numeric_table (control_resource_dictionary initial_state).
Proof. split; unfold numeric_table; compute_done. Qed.

(** X12. Every state the program can reach from start-up by switch
    handshakes and slice operations (with any arguments, any outcome)
    still has the two tables of start-up, which hold integer literals only;
    every registry entry is [None]; and [dp] and [parser_global] are either
    both unset or set together, the parser being the one of the datapath. *)
Theorem reachable_state_invariant st :
  reachable st →
  resource_dictionary st = resource_dictionary initial_state ∧
  control_resource_dictionary st = control_resource_dictionary initial_state ∧
  numeric_table (resource_dictionary st) ∧
  numeric_table (control_resource_dictionary st) ∧
  map_Forall (λ _ v, v = PyNone) (slices st) ∧
  match dp st, parser_global st with
  | Some d, Some pr => pr = ofproto_parser d
  | None, None => True
  | _, _ => False
  end.
Proof.
  intros Hreach. destruct (reachable_tables st Hreach) as [Hres Hctl].
  split; [done|]. split; [done|]. rewrite Hres, Hctl.
  split; [apply initial_tables_numeric|].
  split; [apply initial_tables_numeric|].
  clear Hres Hctl.
  induction Hreach as [|st datapath _ IH|st sid ms _ IH|st sid ms _ IH].
  - split; [apply map_Forall_empty|done].
  - rewrite switch_features_handler_run. cbn. by destruct IH.
  - destruct (create_network_slice sid ms st) as [[r st'] t] eqn:Hrun.
    apply create_any_inv in Hrun as [-> _]. cbn. destruct IH as [IH1 IH2].
    split; [by apply map_Forall_insert_2|done].
  - destruct (delete_network_slice sid ms st) as [[r st'] t] eqn:Hrun.
    apply delete_any_inv in Hrun as ->. cbn. destruct IH as [IH1 IH2].
    split; [by apply map_Forall_delete|done].
Qed.

Lemma reachable_state_invariant_witness :
  map_Forall (λ _ v, v = PyNone)
    (slices (create_network_slice "s1" ["icarus1"; "bogus"]
               connected_state).1.2).
Proof.
  apply (reachable_state_invariant
           (create_network_slice "s1" ["icarus1"; "bogus"]
              (switch_features_handler pronto initial_state).1.2).1.2).
  apply reach_create, reach_handshake, reach_start.
Defined.

(** ** The tables of the program *)

Lemma resource_entries name p :
  lookup_int (resource_dictionary initial_state) name = Ok p →
  (name, p) ∈ [("icarus1", 1); ("icarus5", 3); ("icarus8", 5);
               ("icarus9", 7); ("entry1", 9); ("entry2", 13)].
Proof.
  unfold lookup_int, initial_state. cbn [resource_dictionary].
  destruct (_ !! name) as [v|] eqn:Hv; [|done].
  repeat (apply lookup_insert_Some in Hv as [[<- <-]|[_ Hv]];
          [intros [= <-]; set_solver|]).
  by rewrite lookup_empty in Hv.
Qed.

Lemma control_entries key bp :
  lookup_int (control_resource_dictionary initial_state) key = Ok bp →
  (key, bp) ∈ [("1", 7); ("3", 3); ("5", 9); ("7", 5)].
Proof.
  unfold lookup_int, initial_state. cbn [control_resource_dictionary].
  destruct (_ !! key) as [v|] eqn:Hv; [|done].
  repeat (apply lookup_insert_Some in Hv as [[<- <-]|[_ Hv]];
          [intros [= <-]; set_solver|]).
  by rewrite lookup_empty in Hv.
Qed.

Lemma resource_lookup_inj name1 name2 p :
  lookup_int (resource_dictionary initial_state) name1 = Ok p →
  lookup_int (resource_dictionary initial_state) name2 = Ok p →
  name1 = name2.
Proof.
  intros H1%resource_entries H2%resource_entries.
  rewrite !elem_of_cons, elem_of_nil in H1, H2.
  destruct_or!; simplify_eq; done.
Qed.

Lemma control_lookup_inj key1 key2 bp :
  lookup_int (control_resource_dictionary initial_state) key1 = Ok bp →
  lookup_int (control_resource_dictionary initial_state) key2 = Ok bp →
  key1 = key2.
Proof.
  intros H1%control_entries H2%control_entries.
  rewrite !elem_of_cons, elem_of_nil in H1, H2.
  destruct_or!; simplify_eq; done.
Qed.

Lemma py_str_inj p q : py_str p = py_str q → p = q.
Proof. unfold py_str. apply (inj pretty). Qed.

Lemma resolve_all_elem (d : gmap string string) names P p :
  resolve_all d names = Ok P → p ∈ P →
  ∃ name, name ∈ names ∧ lookup_int d name = Ok p.
Proof.
  revert P. induction names as [|name names IH]; intros P; cbn [resolve_all].
  { intros [= <-] Hp. by apply elem_of_nil in Hp. }
  destruct (lookup_int d name) as [p0|e] eqn:Hname; [|done].
  destruct (resolve_all d names) as [P0|e]; [|done].
  intros [= <-] [->|Hp]%elem_of_cons.
  - exists name. split; [apply list_elem_of_here|done].
  - destruct (IH P0 eq_refl Hp) as (name' & Hin & Hl).
    exists name'. split; [by apply list_elem_of_further|done].
Qed.

Lemma resolve_all_NoDup (d : gmap string string) names P :
  (∀ name1 name2 p,
     lookup_int d name1 = Ok p → lookup_int d name2 = Ok p → name1 = name2) →
  resolve_all d names = Ok P → NoDup names → NoDup P.
Proof.
  intros Hinj. revert P.
  induction names as [|name names IH]; intros P; cbn [resolve_all].
  { intros [= <-] _. constructor. }
  destruct (lookup_int d name) as [p0|e] eqn:Hname; [|done].
  destruct (resolve_all d names) as [P0|e] eqn:HP0; [|done].
  intros [= <-] [Hnotin Hnd]%NoDup_cons. apply NoDup_cons.
  split; [|by apply IH].
  intros Hp0. destruct (resolve_all_elem d names P0 p0 HP0 Hp0)
    as (name' & Hin & Hl).
  by rewrite (Hinj name name' p0 Hname Hl) in Hnotin.
Qed.

(** X13. In every reachable state the two tables are consistent with each
    other and free of clashes: a member list without repeated names that
    resolves, resolves to pairwise distinct ports; two ports that translate
    to the same control port are the same port; and every port that has a
    control entry is the port of some resource name. *)
Theorem reachable_tables_are_consistent st :
  reachable st →
  (∀ slice_members P,
     NoDup slice_members →
     list_comp host_to_port slice_members st = (Ok P, st, []) →
     NoDup P) ∧
  (∀ p q bp,
     port_translate_to_brocade p st = (Ok bp, st, []) →
     port_translate_to_brocade q st = (Ok bp, st, []) →
     p = q) ∧
  (∀ p,
     is_Some (control_resource_dictionary st !! py_str p) →
     ∃ name, host_to_port name st = (Ok p, st, [])).
Proof.
  intros Hreach. destruct (reachable_tables st Hreach) as [Hres Hctl].
  split; [|split].
  - intros ms P Hnd HP. apply resolve_all_of_run in HP. rewrite Hres in HP.
    by apply (resolve_all_NoDup _ ms P resource_lookup_inj).
  - intros p q bp. rewrite !port_translate_to_brocade_run, Hctl.
    intros [= Hp] [= Hq]. apply py_str_inj.
    by apply (control_lookup_inj _ _ bp).
  - intros p [v Hv]. rewrite Hctl in Hv.
    assert (Hl : ∃ bp,
      lookup_int (control_resource_dictionary initial_state) (py_str p)
      = Ok bp).
    { unfold lookup_int. rewrite Hv.
      destruct (proj2 initial_tables_numeric _ _ Hv) as [bp ->]. by exists bp. }
    destruct Hl as [bp Hl]. apply control_entries in Hl.
    rewrite !elem_of_cons, elem_of_nil in Hl.
    assert (Hcases : p = 1 ∨ p = 3 ∨ p = 5 ∨ p = 7).
    { destruct_or!; simplify_eq.
      - left. by apply py_str_inj.
      - right; left. by apply py_str_inj.
      - right; right; left. by apply py_str_inj.
      - right; right; right. by apply py_str_inj. }
    destruct Hcases as [->|[->|[->| ->]]].
    + exists "icarus1". by rewrite host_to_port_run, Hres.
    + exists "icarus5". by rewrite host_to_port_run, Hres.
    + exists "icarus8". by rewrite host_to_port_run, Hres.
    + exists "icarus9". by rewrite host_to_port_run, Hres.
Qed.

Lemma reachable_tables_are_consistent_witness :
  ∃ name, host_to_port name connected_state = (Ok 5, connected_state, []).
Proof.
  refine (proj2 (proj2 (reachable_tables_are_consistent connected_state _))
            5 _).
  - apply (reach_handshake initial_state pronto), reach_start.
  - compute_done.
Defined.

(** ** The REST handlers *)

(** X14. A request without a body, with a body that is not JSON, or with a
    JSON object that lacks ['slice_id'] or ['ports'] never reaches the
    application: [create_slice] and [delete_slice] end without a response,
    leave the state (registry included) untouched and produce no event.  No
    body, or no ['slice_id'], is a [KeyError] on ['slice_id']; a missing
    ['ports'] alone is a [KeyError] on ['ports']; a body that is not JSON
    ends in the [TypeError] of [raise Response(status=400)], the operand
    not being an exception, so no response with status 400 is produced. *)
Theorem malformed_request_has_no_effect st req :
  (req = ReqNoBody ∨ req = ReqNotJson ∨
   ∃ e, req = ReqJson e ∧ (entry_slice_id e = None ∨ entry_ports e = None)) →
  ∃ o,
    create_slice req st = (o, st, []) ∧
    delete_slice req st = (o, st, []) ∧
    (∀ r, o ≠ Returned r) ∧
    o = match req with
        | ReqNotJson => RaisedTypeError (mkResponse 400)
        | ReqNoBody => Raised (KeyError "slice_id")
        | ReqJson e =>
            match entry_slice_id e with
            | None => Raised (KeyError "slice_id")
            | Some _ => Raised (KeyError "ports")
            end
        end.
Proof.
  unfold create_slice, delete_slice, handle.
  intros [->|[->|(e & -> & Hmiss)]].
  - by eexists.
  - by eexists.
  - destruct e as [[sid|] ports]; cbn in *; [|by eexists].
    destruct Hmiss as [[=]| ->]. by eexists.
Qed.

Lemma malformed_request_has_no_effect_witness :
  (∃ o,
     create_slice (ReqJson (mkEntry (Some "s1") None)) connected_state
       = (o, connected_state, []) ∧
     delete_slice (ReqJson (mkEntry (Some "s1") None)) connected_state
       = (o, connected_state, []) ∧
     (∀ r, o ≠ Returned r) ∧
     o = Raised (KeyError "ports")) ∧
  (∃ o,
     create_slice ReqNotJson connected_state = (o, connected_state, []) ∧
     delete_slice ReqNotJson connected_state = (o, connected_state, []) ∧
     (∀ r, o ≠ Returned r) ∧
     o = RaisedTypeError (mkResponse 400)) ∧
  (∃ o,
     create_slice ReqNoBody connected_state = (o, connected_state, []) ∧
     delete_slice ReqNoBody connected_state = (o, connected_state, []) ∧
     (∀ r, o ≠ Returned r) ∧
     o = Raised (KeyError "slice_id")).
Proof.
  split; [|split].
  - apply (malformed_request_has_no_effect connected_state
             (ReqJson (mkEntry (Some "s1") None))).
    right. right. eexists. split; [reflexivity|]. right. reflexivity.
  - apply (malformed_request_has_no_effect connected_state ReqNotJson).
    right. left. reflexivity.
  - apply (malformed_request_has_no_effect connected_state ReqNoBody).
    left. reflexivity.
Defined.

Lemma reachable_connected st d :
  reachable st → dp st = Some d → parser_global st = Some (ofproto_parser d).
Proof.
  induction 1 as [|st datapath _ IH|st sid ms _ IH|st sid ms _ IH]; [done|..].
  - rewrite switch_features_handler_run. cbn. by intros [= ->].
  - destruct (create_network_slice sid ms st) as [[r st'] t] eqn:Hrun.
    by apply create_any_inv in Hrun as [-> _].
  - destruct (delete_network_slice sid ms st) as [[r st'] t] eqn:Hrun.
    by apply delete_any_inv in Hrun as ->.
Qed.

(** X15. In every reachable state in which a switch has connected: a
    create request for an id that is not registered whose ports are all
    names of the resource table is answered with status 200, and a delete
    request with the same body sent next is answered with status 200 and
    brings the program back to exactly the state before the create. *)
Theorem rest_create_then_delete st d slice_id ports :
  reachable st →
  dp st = Some d →
  slices st !! slice_id = None →
  Forall (λ name, is_Some (resource_dictionary initial_state !! name)) ports →
  ∃ st1 t1 t2,
    create_slice (ReqJson (mkEntry (Some slice_id) (Some ports))) st
      = (Returned (mkResponse 200), st1, t1) ∧
    delete_slice (ReqJson (mkEntry (Some slice_id) (Some ports))) st1
      = (Returned (mkResponse 200), st, t2) ∧
    slices st1 !! slice_id = Some PyNone.
Proof.
  intros Hreach Hd Hfresh Hall.
  destruct (reachable_tables st Hreach) as [Hres Hctl].
  pose proof (reachable_connected st d Hreach Hd) as Hpr.
  destruct initial_tables_numeric as [Hnr Hnc].
  rewrite <- Hres in Hnr, Hall. rewrite <- Hctl in Hnc.
  destruct (create_network_slice_ok st d _ slice_id ports Hnr Hnc Hd Hpr Hall)
    as (P & _ & _ & Hrun1).
  set (st1 := set_slices (λ m, <[slice_id := PyNone]> m) st) in *.
  destruct (delete_network_slice_ok st1 d _ slice_id ports Hnr Hnc Hd Hpr Hall)
    as (P' & _ & Hrun2).
  unfold st1 in Hrun2 at 2. rewrite set_slices_delete_insert in Hrun2 by done.
  unfold create_slice, delete_slice, handle.
  cbn [entry_slice_id entry_ports]. rewrite Hrun1.
  eexists st1, _, _. split; [done|]. rewrite Hrun2.
  split; [done|]. apply lookup_insert_eq.
Qed.

Lemma rest_create_then_delete_witness :
  ∃ st1 t1 t2,
    create_slice (ReqJson (mkEntry (Some "s1") (Some ["icarus1"; "entry2"])))
      connected_state
      = (Returned (mkResponse 200), st1, t1) ∧
    delete_slice (ReqJson (mkEntry (Some "s1") (Some ["icarus1"; "entry2"])))
      st1
      = (Returned (mkResponse 200), connected_state, t2) ∧
    slices st1 !! "s1" = Some PyNone.
Proof.
  apply (rest_create_then_delete connected_state pronto "s1"
           ["icarus1"; "entry2"]).
  - apply (reach_handshake initial_state pronto), reach_start.
  - reflexivity.
  - vm_compute; reflexivity.
  - compute_done.
Defined.
